(** * plaza-bonita-hook: the daily "Round1 Plaza Bonita Day N: START" job

    A shallow embedding of [src/index.ts] and the properties of its
    opening-time parser, timeout calculator, day counter and scheduled
    handler.

    Conventions of the embedding.
    - An instant is its number of milliseconds since the Unix epoch, in [Z].
    - A JavaScript string is a [string]; its characters are code units below
      256.
    - [number | undefined] is [option Z]; a thrown exception or a rejected
      promise is the [Throw] outcome of the monad [M].  The numbers of the
      program are integers, and the code's sums and renderings of them are
      those of [Z] for the safe integers, between -2^53 and 2^53: a day
      number is taken to be one ([safeInteger]).
    - luxon and the worker runtime are not part of the program.  Their
      functions are modelled here for exactly the calls the program makes
      ([DateTime.now], [setZone], [set], [fromFormat] with the formats ['ha']
      and ['h a'], [diffNow], [weekdayLong], [Duration.toObject]); each model
      says which library function it stands for.  The worker's own zone is
      UTC, the zone of the Cloudflare Workers runtime. *)

From Stdlib Require Import ZArith QArith Qround Bool List Lia.
From Stdlib Require Import Ascii String DecimalString.
From Stdlib Require DecimalZ DecimalPos.
Import ListNotations.

Local Open Scope string_scope.
Local Open Scope Z_scope.

Set Warnings "-register-all".

(* ================================================================== *)
(** * Strings *)
(* ================================================================== *)

Module Str.

Definition code (c : ascii) : Z := Z.of_nat (nat_of_ascii c).

(** [String.prototype.split(sep)] for a non-empty separator: the text is
    cut at every occurrence of [sep], found from left to right without
    overlap.  [skip] counts the characters of a separator just matched that
    are still to be passed over; [cur] is the part being collected. *)
Fixpoint split_from (sep : string) (skip : nat) (cur s : string) : list string :=
  match s with
  | EmptyString => [cur]
  | String c s' =>
      match skip with
      | S k => split_from sep k cur s'
      | O =>
          if prefix sep s
          then cur :: split_from sep (Nat.pred (String.length sep)) EmptyString s'
          else split_from sep 0 (cur ++ String c EmptyString)%string s'
      end
  end.

Definition split (sep s : string) : list string :=
  split_from sep 0 EmptyString s.

(** White space of [String.prototype.trim] among the code units below 256:
    TAB, LF, VT, FF, CR, SPACE and NO-BREAK SPACE. *)
Definition is_space (c : ascii) : bool :=
  let n := code c in
  ((9 <=? n) && (n <=? 13)) || (n =? 32) || (n =? 160).

Fixpoint trimStart (s : string) : string :=
  match s with
  | EmptyString => EmptyString
  | String c s' => if is_space c then trimStart s' else s
  end.

(** [trimEnd s] drops the trailing white space: a character is kept when
    something that is not white space follows it or it is none itself. *)
Fixpoint trimEnd (s : string) : string :=
  match s with
  | EmptyString => EmptyString
  | String c s' =>
      match trimEnd s' with
      | EmptyString => if is_space c then EmptyString else String c EmptyString
      | t => String c t
      end
  end.

Definition trim (s : string) : string := trimEnd (trimStart s).

Definition lower (c : ascii) : ascii :=
  let n := code c in
  if (65 <=? n) && (n <=? 90) then ascii_of_nat (nat_of_ascii c + 32)%nat else c.

(** [String.prototype.toLowerCase] on ASCII letters. *)
Fixpoint toLowerCase (s : string) : string :=
  match s with
  | EmptyString => EmptyString
  | String c s' => String (lower c) (toLowerCase s')
  end.

(** Number of occurrences of the character [c]. *)
Fixpoint count (c : ascii) (s : string) : nat :=
  match s with
  | EmptyString => 0%nat
  | String d s' => ((if Ascii.eqb c d then 1 else 0) + count c s')%nat
  end.

(** The text before the first occurrence of [sep], all of it when there is
    none. *)
Fixpoint before (sep s : string) : string :=
  match s with
  | EmptyString => EmptyString
  | String c s' => if prefix sep s then EmptyString else String c (before sep s')
  end.

(** Decimal rendering of an integer, as a template literal renders a
    number that is a safe integer, of magnitude at most 2^53. *)
Definition ofNumber (n : Z) : string := NilZero.string_of_int (Z.to_int n).

End Str.

(* ================================================================== *)
(** * JSON values *)
(* ================================================================== *)

(** What [resp.json()] yields.  A JavaScript value read out of it is an
    [option Json], [None] being [undefined]. *)
Inductive Json : Type :=
| JNull
| JBool (b : bool)
| JNum (q : Q)
| JStr (s : string)
| JArr (items : list Json)
| JObj (members : list (string * Json)).

Definition JsVal : Type := option Json.

Fixpoint lookup (k : string) (members : list (string * Json)) : JsVal :=
  match members with
  | [] => None
  | (k', v) :: rest => if String.eqb k k' then Some v else lookup k rest
  end.

(** [ToBoolean]. *)
Definition truthy (v : JsVal) : bool :=
  match v with
  | None | Some JNull => false
  | Some (JBool b) => b
  | Some (JNum q) => negb (Qeq_bool q 0)
  | Some (JStr s) => negb (String.eqb s "")
  | Some (JArr _) | Some (JObj _) => true
  end.

(** Whether converting the value to a string, as a template literal does,
    throws: an object parsed from JSON with a member named [toString] has a
    [toString] that cannot be called, and an array converts its items. *)
Fixpoint toStringThrows (j : Json) : bool :=
  match j with
  | JObj members => existsb (fun kv => String.eqb (fst kv) "toString") members
  | JArr items => existsb toStringThrows items
  | _ => false
  end.

(* ================================================================== *)
(** * Effects: clock, trace and exceptions *)
(* ================================================================== *)

Inductive Exn : Type :=
| TypeError                                   (* read of a property of null or undefined, call of a non-function *)
| InvalidArgumentError                        (* luxon: Invalid unit value *)
| StatusError (status : Z) (url : string)     (* throwError, line 107 *)
| UnexpectedResponse (data : Json)            (* throwError, line 108 *)
| NoDayOfWeek                                 (* throwError, line 69 *)
| FetchRejected                               (* fetch() rejected *)
| SyntaxError                                 (* resp.json() rejected *)
| D1Rejected.                                 (* a D1 statement rejected *)

Inductive LogLine : Type :=
| LogAttempt (hours : JsVal)                  (* line 85 *)
| LogStorepointOk                             (* line 110 *)
| LogErr (err : Exn)                          (* lines 114 and 130 *)
| LogSending (message : string) (timeout : Z) (* line 181 *)
| LogResponse (status : Z)                    (* line 156 *)
| LogUpdating (day : Z)                       (* line 186 *)
| LogUpdateInfo                               (* line 190 *)
| LogClosed.                                  (* line 192 *)

(** What the invocation does to the outside, in the order it does it. *)
Inductive Event : Type :=
| EFetch (url : string)
| ELog (line : LogLine)
| EDbFirst (storeId : Z)
| ESetTimeout (ms : Z)
| EWebhookPost (webhookId webhookToken content : string)
| EDbRun (daysOpen storeId : Z).

Inductive Body : Type :=
| BodyInvalid
| BodyJson (data : Json).

Inductive FetchResult : Type :=
| FetchFails
| FetchResponse (status : Z) (body : Body).

Inductive PostResult : Type :=
| PostFails
| PostResponse (status : Z).

(** What [first('DaysOpen')] answers: a rejection, or the integer of the
    counter row, [None] being [null], no row. *)
Inductive FirstResult : Type :=
| FirstFails
| FirstValue (daysOpen : option Z).

Inductive RunResult : Type :=
| RunFails
| RunDone.

(** The surroundings of one invocation: the successive readings of the
    clock, the offset in minutes of America/Los_Angeles at an instant as the
    runtime knows it ([None] when it does not know the zone), and what each
    collaborator answers. *)
Record Env : Type := mkEnv {
  clock : nat -> Z;
  pacific : option (Z -> Z);
  storepoint : FetchResult;
  DB_first : FirstResult;
  WEBHOOK_ID : string;
  WEBHOOK_TOKEN : string;
  discord : PostResult;
  DB_run : RunResult
}.

Record State : Type := mkState {
  reads : nat;
  trace : list Event
}.

Definition initial : State := mkState 0 [].

Inductive Outcome (A : Type) : Type :=
| Ret (a : A)
| Throw (e : Exn).

Arguments Ret {A} a.
Arguments Throw {A} e.

Definition M (A : Type) : Type := State -> Outcome A * State.

Definition ret {A} (a : A) : M A := fun st => (Ret a, st).

Definition throw {A} (e : Exn) : M A := fun st => (Throw e, st).

Definition bind {A B} (m : M A) (f : A -> M B) : M B :=
  fun st =>
    match m st with
    | (Ret a, st') => f a st'
    | (Throw e, st') => (Throw e, st')
    end.

(** [try { m } catch (err) { handler err }]. *)
Definition tryCatch {A} (m : M A) (handler : Exn -> M A) : M A :=
  fun st =>
    match m st with
    | (Ret a, st') => (Ret a, st')
    | (Throw e, st') => handler e st'
    end.

Notation "x <- m ;; k" := (bind m (fun x => k))
  (at level 61, m at next level, right associativity).
Notation "m ;; k" := (bind m (fun _ => k))
  (at level 61, right associativity).

(** The state after the events [es], and after one reading of the clock. *)
Definition record (es : list Event) (st : State) : State :=
  mkState (reads st) (trace st ++ es).

Definition tick (st : State) : State := mkState (S (reads st)) (trace st).

Definition emit (e : Event) : M unit := fun st => (Ret tt, record [e] st).

Definition log (line : LogLine) : M unit := emit (ELog line).

(** One reading of the clock. *)
Definition readClock (env : Env) : M Z :=
  fun st => (Ret (clock env (reads st)), tick st).

(** [when c m] is [if (c) m]. *)
Definition when (c : bool) (m : M unit) : M unit := if c then m else ret tt.

(** Reading a member that no prototype defines: the program reads
    [success], [results], [location] and a weekday name. *)
Definition getProp (base : JsVal) (key : string) : M JsVal :=
  match base with
  | None | Some JNull => throw TypeError
  | Some (JObj members) => ret (lookup key members)
  | Some _ => ret None
  end.

(* ================================================================== *)
(** * luxon *)
(* ================================================================== *)

Module Luxon.

Definition MS_PER_DAY : Z := 86400000.
Definition MS_PER_HOUR : Z := 3600000.
Definition MS_PER_MINUTE : Z := 60000.

(** A zone is its offset from UTC in minutes at each instant. *)
Definition Zone : Type := Z -> Z.

Definition utc : Zone := fun _ => 0.

(** A [DateTime] is invalid, or an instant [ts] seen in a zone, with the
    zone's offset [o] at that instant. *)
Inductive DateTime : Type :=
| Invalid
| Valid (ts : Z) (zone : Zone) (o : Z).

Definition isValid (dt : DateTime) : bool :=
  match dt with Invalid => false | Valid _ _ _ => true end.

(** The wall clock of the zone, as milliseconds since 1970-01-01T00:00 of
    that wall clock, and what it shows: the day (counted from 1970-01-01)
    and the time of the day.  The calendar date is a function of [localDay],
    and the program reads it nowhere else. *)
Definition localTS (ts o : Z) : Z := ts + o * MS_PER_MINUTE.

Definition localDay (dt : DateTime) : option Z :=
  match dt with
  | Invalid => None
  | Valid ts _ o => Some (localTS ts o / MS_PER_DAY)
  end.

Definition msOfDay (ts o : Z) : Z := localTS ts o mod MS_PER_DAY.

(** The getters yield [NaN], here [None], on an invalid [DateTime]. *)
Definition hour (dt : DateTime) : option Z :=
  match dt with
  | Invalid => None
  | Valid ts _ o => Some (msOfDay ts o / MS_PER_HOUR)
  end.

Definition minute (dt : DateTime) : option Z :=
  match dt with
  | Invalid => None
  | Valid ts _ o => Some (msOfDay ts o mod MS_PER_HOUR / MS_PER_MINUTE)
  end.

Definition second (dt : DateTime) : option Z :=
  match dt with
  | Invalid => None
  | Valid ts _ o => Some (msOfDay ts o mod MS_PER_MINUTE / 1000)
  end.

Definition millisecond (dt : DateTime) : option Z :=
  match dt with
  | Invalid => None
  | Valid ts _ o => Some (msOfDay ts o mod 1000)
  end.

(** [weekdayLong] in the locale en-US, [null] on an invalid [DateTime].
    1970-01-01 was a Thursday. *)
Definition weekdayNames : list string :=
  ["Monday"; "Tuesday"; "Wednesday"; "Thursday"; "Friday"; "Saturday"; "Sunday"].

Definition weekdayLong (dt : DateTime) : option string :=
  match localDay dt with
  | None => None
  | Some d => nth_error weekdayNames (Z.to_nat ((d + 3) mod 7))
  end.

(** [DateTime.now()]: the clock, in the worker's zone. *)
Definition now (env : Env) : M DateTime :=
  t <- readClock env ;; ret (Valid t utc 0).

(** [setZone("America/Los_Angeles")]: the same instant seen in the zone, or,
    when the runtime does not know the zone, a new invalid [DateTime], whose
    construction reads the clock, as that of every invalid [DateTime] does. *)
Definition setZone (env : Env) (dt : DateTime) : M DateTime :=
  match pacific env with
  | Some zone =>
      ret (match dt with
           | Valid ts _ _ => Valid ts zone (zone ts)
           | Invalid => Invalid
           end)
  | None => _ <- readClock env ;; ret Invalid
  end.

(** luxon's [fixOffset]: the instant at which the zone's wall clock shows
    [local], starting from the guess that the offset is [o]. *)
Definition fixOffset (local o : Z) (zone : Zone) : Z * Z :=
  let utcGuess := local - o * MS_PER_MINUTE in
  let o2 := zone utcGuess in
  if o =? o2 then (utcGuess, o)
  else
    let utcGuess2 := utcGuess - (o2 - o) * MS_PER_MINUTE in
    let o3 := zone utcGuess2 in
    if o2 =? o3 then (utcGuess2, o2)
    else (local - Z.min o2 o3 * MS_PER_MINUTE, Z.max o2 o3).

(** [dt.set({ hour, minute, second, millisecond })].  An invalid [DateTime]
    is returned as it is; a [NaN] among the values throws; otherwise the date
    is kept and the time of the day replaced. *)
Definition set (dt : DateTime) (h mi s ms : option Z) : M DateTime :=
  match dt with
  | Invalid => ret Invalid
  | Valid ts zone o =>
      match h, mi, s, ms with
      | Some h, Some mi, Some s, Some ms =>
          let local :=
            localTS ts o / MS_PER_DAY * MS_PER_DAY
            + h * MS_PER_HOUR + mi * MS_PER_MINUTE + s * 1000 + ms in
          let (ts', o') := fixOffset local o zone in
          ret (Valid ts' zone o')
      | _, _, _, _ => throw InvalidArgumentError
      end
  end.

Inductive Unit : Type := Milliseconds | Days.

(** A [Duration] in one unit.  The days are kept exact: in the worker's zone
    every day has [MS_PER_DAY] milliseconds, and the double that luxon
    computes has the ceiling of the exact quotient. *)
Inductive Duration : Type :=
| InvalidDuration
| InMilliseconds (n : Z)
| InDays (q : Q).

(** [dt.diffNow(unit)], that is [dt - DateTime.now()]. *)
Definition diffNow (env : Env) (dt : DateTime) (unit : Unit) : M Duration :=
  t <- readClock env ;;
  match dt with
  | Invalid => ret InvalidDuration
  | Valid ts _ _ =>
      match unit with
      | Milliseconds => ret (InMilliseconds (ts - t))
      | Days => ret (InDays (inject_Z (ts - t) / inject_Z MS_PER_DAY))
      end
  end.

(** [d.toObject().milliseconds] and [d.toObject().days]: the object of an
    invalid [Duration] is empty. *)
Definition milliseconds (d : Duration) : option Z :=
  match d with InMilliseconds n => Some n | _ => None end.

Definition days (d : Duration) : option Q :=
  match d with InDays q => Some q | _ => None end.

(** ** [DateTime.fromFormat] for ['ha'] and ['h a'] *)

Inductive Format : Type := ha | h_a.

Definition isDigit (c : ascii) : bool :=
  (48 <=? Str.code c) && (Str.code c <=? 57).

Definition digit (c : ascii) : Z := Str.code c - 48.

(** The token [a]: AM or PM in any case, numbered 0 and 1. *)
Definition meridiem (s : string) : option Z :=
  let l := Str.toLowerCase s in
  if String.eqb l "am" then Some 0
  else if String.eqb l "pm" then Some 1
  else None.

(** What follows the hour: the meridiem, after one space for ['h a']. *)
Definition afterHour (fmt : Format) (s : string) : option Z :=
  match fmt with
  | ha => meridiem s
  | h_a =>
      match s with
      | String c s' => if Ascii.eqb c " " then meridiem s' else None
      | EmptyString => None
      end
  end.

(** The match of the whole text against one or two digits (token [h])
    followed by [afterHour]: two digits are tried before one. *)
Definition explain (fmt : Format) (text : string) : option (Z * Z) :=
  match text with
  | String d1 rest =>
      if isDigit d1 then
        let one :=
          match afterHour fmt rest with
          | Some a => Some (digit d1, a)
          | None => None
          end in
        match rest with
        | String d2 rest2 =>
            if isDigit d2 then
              match afterHour fmt rest2 with
              | Some a => Some (10 * digit d1 + digit d2, a)
              | None => one
              end
            else one
        | EmptyString => one
        end
      else None
  | EmptyString => None
  end.

(** The hour of the 24-hour clock for the matched hour and meridiem. *)
Definition hour24 (h a : Z) : Z :=
  if (h <? 12) && (a =? 1) then h + 12
  else if (h =? 12) && (a =? 0) then 0
  else h.

(** The hour that the text denotes in the format, [None] when the text does
    not match or the hour is out of range; 24 is in range at minute 0. *)
Definition parsedHour (fmt : Format) (text : string) : option Z :=
  match explain fmt text with
  | Some (h, a) =>
      let h' := hour24 h a in
      if (0 <=? h') && (h' <=? 24) then Some h' else None
  | None => None
  end.

(** [DateTime.fromFormat(text, fmt)]: the parsed hour on the current date of
    the worker's zone, or an invalid [DateTime].  A text that does not match
    gives the invalid [DateTime] at once, at the cost of the reading of the
    clock that its construction makes; a text that matches is completed
    with the current date, read from the clock, and an hour out of range
    then gives the invalid [DateTime], with a second reading. *)
Definition fromFormat (env : Env) (text : string) (fmt : Format) : M DateTime :=
  match explain fmt text with
  | Some (h, a) =>
      t <- readClock env ;;
      let h' := hour24 h a in
      if (0 <=? h') && (h' <=? 24)
      then ret (Valid (t / MS_PER_DAY * MS_PER_DAY + h' * MS_PER_HOUR) utc 0)
      else _ <- readClock env ;; ret Invalid
  | None => _ <- readClock env ;; ret Invalid
  end.

End Luxon.

(* ================================================================== *)
(** * The program, [src/index.ts] *)
(* ================================================================== *)

Import Luxon.

Definition URL_PREFIX : string := "https://api.storepoint.co/v1/16026f2c5ac3c7/location/".
Definition PLAZA_BONITA_ID : Z := 39156327.
Definition FALLBACK_HOUR : Z := 10.
Definition FALLBACK_TIMEOUT : Z := 3 * 60 * 1000.

(** Days from 1970-01-01 to a date of the Gregorian calendar, to write
    instants as dates. *)
Definition daysFromCivil (y m d : Z) : Z :=
  let y' := if m <=? 2 then y - 1 else y in
  let era := y' / 400 in
  let yoe := y' - era * 400 in
  let doy := (153 * (if m <=? 2 then m + 9 else m - 3) + 2) / 5 + d - 1 in
  let doe := yoe * 365 + yoe / 4 - yoe / 100 + doy in
  era * 146097 + doe - 719468.

(** The instant at which a wall clock [offset] minutes from UTC shows the
    date [y]-[m]-[d] and the time [hh]:[mm]. *)
Definition instant (y m d hh mm offset : Z) : Z :=
  daysFromCivil y m d * MS_PER_DAY + hh * MS_PER_HOUR + (mm - offset) * MS_PER_MINUTE.

(** [DateTime.fromISO("2024-06-22T10:00:00.000-07:00")]. *)
Definition OPENING_DATE : DateTime := Valid (instant 2024 6 22 10 0 (-420)) utc 0.

Definition throwError {A} (e : Exn) : M A := throw e.

Definition getTodayPT (env : Env) : M DateTime :=
  dt <- now env ;; setZone env dt.

(** [a ?? b]. *)
Definition orElse {A} (a : option A) (b : A) : A :=
  match a with Some v => v | None => b end.

(** Line 35: today at [FALLBACK_HOUR] o'clock. *)
Definition fallbackOpeningTime (env : Env) : M DateTime :=
  today <- getTodayPT env ;;
  set today (Some FALLBACK_HOUR) (Some 0) (Some 0) (Some 0).

Definition getFallbackTimeout (env : Env) : M Z :=
  openingTime <- fallbackOpeningTime env ;;
  d <- diffNow env openingTime Milliseconds ;;
  ret (orElse (milliseconds d) FALLBACK_TIMEOUT).

Definition getFallbackDaysOpen (env : Env) : M Z :=
  d <- diffNow env OPENING_DATE Days ;;
  ret (Qceiling (- orElse (days d) 0%Q) + 1).

Definition getMessage (dayNumber : Z) : string :=
  ("Round1 Plaza Bonita Day " ++ Str.ofNumber dayNumber ++ ": START")%string.

Definition getCurrentDayOfWeekPT (env : Env) : M string :=
  today <- getTodayPT env ;;
  match weekdayLong today with
  | Some name => ret (Str.toLowerCase name)
  | None => throwError NoDayOfWeek
  end.

(** Lines 86 and 87: the parts of the hours text. *)
Definition times (hours : string) : list string :=
  let times := Str.split "-" hours in
  if negb (Nat.eqb (List.length times) 2) then Str.split "to" hours else times.

(** Line 89: the opening token, [times[0].trim()]. *)
Definition opening (hours : string) : option string :=
  match times hours with
  | first :: _ => Some (Str.trim first)
  | [] => None
  end.

Definition getOpeningTime (env : Env) (hours : JsVal) : M DateTime :=
  match hours with
  | Some (JStr text) =>
      log (LogAttempt hours) ;;
      match opening text with
      | Some opening =>
          openingTime <- fromFormat env opening ha ;;
          openingTime <- (if negb (isValid openingTime)
                          then fromFormat env opening h_a
                          else ret openingTime) ;;
          today <- getTodayPT env ;;
          set today (hour openingTime) (minute openingTime)
                    (second openingTime) (millisecond openingTime)
      | None => throw TypeError
      end
  | Some other =>
      when (negb (toStringThrows other)) (log (LogAttempt hours)) ;;
      throw TypeError
  | None =>
      log (LogAttempt hours) ;;
      throw TypeError
  end.

(** [fetch(url)] and [resp.json()] of [getBusinessHours]. *)
Definition fetch (env : Env) (url : string) : M (Z * Body) :=
  emit (EFetch url) ;;
  match storepoint env with
  | FetchFails => throw FetchRejected
  | FetchResponse status body => ret (status, body)
  end.

Definition json (resp : Z * Body) : M Json :=
  match snd resp with
  | BodyInvalid => throw SyntaxError
  | BodyJson data => ret data
  end.

Definition ok (status : Z) : bool := (200 <=? status) && (status <=? 299).

Definition getBusinessHours (env : Env) (id : Z) : M (option Json) :=
  tryCatch
    (let url := (URL_PREFIX ++ Str.ofNumber id)%string in
     resp <- fetch env url ;;
     data <- json resp ;;
     when (negb (ok (fst resp))) (throwError (StatusError (fst resp) url)) ;;
     success <- getProp (Some data) "success" ;;
     when (negb (truthy success))
          (if toStringThrows data then throw TypeError
           else throwError (UnexpectedResponse data)) ;;
     log LogStorepointOk ;;
     ret (Some data))
    (fun err => log (LogErr err) ;; ret None).

Definition getTimeout (env : Env) (data : Json) : M (option Z) :=
  tryCatch
    (results <- getProp (Some data) "results" ;;
     location <- getProp results "location" ;;
     day <- getCurrentDayOfWeekPT env ;;
     hours <- getProp location day ;;
     openingTime <- getOpeningTime env hours ;;
     d <- diffNow env openingTime Milliseconds ;;
     ret (milliseconds d))
    (fun err => log (LogErr err) ;; ret None).

Definition sendDiscordMessage (env : Env) (msg webhookId webhookToken : string) : M unit :=
  emit (EWebhookPost webhookId webhookToken msg) ;;
  match discord env with
  | PostFails => throw FetchRejected
  | PostResponse status => log (LogResponse status)
  end.

(** The two D1 statements of [scheduled]. *)
Definition first (env : Env) (storeId : Z) : M (option Z) :=
  emit (EDbFirst storeId) ;;
  match DB_first env with
  | FirstFails => throw D1Rejected
  | FirstValue v => ret v
  end.

Definition run (env : Env) (daysOpen storeId : Z) : M unit :=
  emit (EDbRun daysOpen storeId) ;;
  match DB_run env with
  | RunFails => throw D1Rejected
  | RunDone => ret tt
  end.

Definition setTimeout (ms : Z) : M unit := emit (ESetTimeout ms).

(** Lines 178 to 190: what [scheduled] does once it has a timeout.  The sum
    [day + 1] is the code's for a day number that is a safe integer. *)
Definition announce (env : Env) (timeout : Z) : M unit :=
  row <- first env PLAZA_BONITA_ID ;;
  day <- match row with
         | Some n => ret n
         | None => getFallbackDaysOpen env
         end ;;
  let message := getMessage day in
  log (LogSending message timeout) ;;
  setTimeout timeout ;;
  sendDiscordMessage env message (WEBHOOK_ID env) (WEBHOOK_TOKEN env) ;;
  log (LogUpdating (day + 1)) ;;
  run env (day + 1) PLAZA_BONITA_ID ;;
  log LogUpdateInfo.

Definition scheduled (env : Env) : M unit :=
  resp <- getBusinessHours env PLAZA_BONITA_ID ;;
  timeout <- match resp with
             | Some data => getTimeout env data
             | None => t <- getFallbackTimeout env ;; ret (Some t)
             end ;;
  match timeout with
  | Some timeout => announce env timeout
  | None =>
      match resp with
      | Some data => if toStringThrows data then throw TypeError else log LogClosed
      | None => log LogClosed
      end
  end.

(** ** Sample surroundings *)

(** America/Los_Angeles from 2024 to 2027: daylight time, 420 minutes behind
    UTC, from the second Sunday of March at 10:00 UTC to the first Sunday of
    November at 09:00 UTC, and standard time, 480 minutes behind, otherwise. *)
Definition losAngeles : Zone := fun ts =>
  if ((instant 2024 3 10 10 0 0 <=? ts) && (ts <? instant 2024 11 3 9 0 0))
     || ((instant 2025 3 9 10 0 0 <=? ts) && (ts <? instant 2025 11 2 9 0 0))
     || ((instant 2026 3 8 10 0 0 <=? ts) && (ts <? instant 2026 11 1 9 0 0))
     || ((instant 2027 3 14 10 0 0 <=? ts) && (ts <? instant 2027 11 7 9 0 0))
  then -420 else -480.

Definition storepointBody (location : list (string * Json)) : Json :=
  JObj [("success", JBool true); ("results", JObj [("location", JObj location)])].

(** An invocation at the instant [t], the clock standing still, with the
    hours source answering 200 with the [location] map, the counter row
    holding [row], and the notifier and the database answering. *)
Definition sampleEnv (t : Z) (location : list (string * Json)) (row : option Z) : Env :=
  mkEnv (fun _ => t) (Some losAngeles)
        (FetchResponse 200 (BodyJson (storepointBody location)))
        (FirstValue row) "id" "token" (PostResponse 204) RunDone.

(** Running the handler from the start. *)
Definition outcome (env : Env) : Outcome unit := fst (scheduled env initial).
Definition events (env : Env) : list Event := trace (snd (scheduled env initial)).

(** The calls to the notifier and to the database among the events. *)
Definition isCollaboratorCall (e : Event) : bool :=
  match e with
  | EDbFirst _ | ESetTimeout _ | EWebhookPost _ _ _ | EDbRun _ _ => true
  | EFetch _ | ELog _ => false
  end.

(* ================================================================== *)
(** * Vocabulary of the properties *)
(* ================================================================== *)

(** The hours source answered: a success status and a JSON object whose
    [success] member is truthy. *)
Definition answers (env : Env) (data : Json) : Prop :=
  exists status members,
    storepoint env = FetchResponse status (BodyJson data)
    /\ ok status = true
    /\ data = JObj members
    /\ truthy (lookup "success" members) = true.

(** The [success] flag of a payload. *)
Definition successFlag (data : Json) : bool :=
  match data with
  | JObj members => truthy (lookup "success" members)
  | _ => false
  end.

(** The four ways in which the fetch of the hours fails. *)
Inductive FetchFailure (env : Env) : Prop :=
| NetworkError :
    storepoint env = FetchFails -> FetchFailure env
| BadStatus status body :
    storepoint env = FetchResponse status body -> ok status = false ->
    FetchFailure env
| MalformedPayload status :
    storepoint env = FetchResponse status BodyInvalid -> FetchFailure env
| SuccessFalse status data :
    storepoint env = FetchResponse status (BodyJson data) ->
    successFlag data = false -> FetchFailure env.

(** The hours map of a payload, [data.results.location], when the payload
    has that shape. *)
Definition hoursMap (data : Json) : option (list (string * Json)) :=
  match data with
  | JObj members =>
      match lookup "results" members with
      | Some (JObj results) =>
          match lookup "location" results with
          | Some (JObj location) => Some location
          | _ => None
          end
      | _ => None
      end
  | _ => None
  end.

(** The lower-case name of the weekday that the zone's wall clock shows at
    the instant [t]. *)
Definition dayName (zone : Zone) (t : Z) : string :=
  Str.toLowerCase
    (nth (Z.to_nat ((localTS t (zone t) / MS_PER_DAY + 3) mod 7)) weekdayNames "").

(** The opening token of the text has an hour in one of the two formats. *)
Definition parseable (text : string) : Prop :=
  exists token h,
    opening text = Some token
    /\ (parsedHour ha token = Some h \/ parsedHour h_a token = Some h).

(** The opening token of the text fails both formats. *)
Definition unparseable (text : string) : Prop :=
  exists token,
    opening text = Some token
    /\ parsedHour ha token = None /\ parsedHour h_a token = None.

(** The hour that lines 90 and 91 read in a token: that of the format
    ['ha'], and failing it that of ['h a']. *)
Definition firstHour (token : string) : option Z :=
  match parsedHour ha token with
  | Some h => Some h
  | None => parsedHour h_a token
  end.

(** The readings of the clock that [fromFormat] makes for a text: one, and
    two when the text matches with an hour out of range.  The readings that
    lines 90 and 91 make for a token: those of the format ['ha'], and those
    of the format ['h a'] when it is tried. *)
Definition formatReadings (fmt : Format) (text : string) : nat :=
  match explain fmt text, parsedHour fmt text with
  | Some _, None => 2
  | _, _ => 1
  end.

Definition parseReadings (token : string) : nat :=
  match parsedHour ha token with
  | Some _ => formatReadings ha token
  | None => formatReadings ha token + formatReadings h_a token
  end.

(** Today in the zone at the reading [t], and the readings of the clock
    that [getTodayPT] makes for it. *)
Definition todayIn (env : Env) (t : Z) : DateTime :=
  match pacific env with
  | Some zone => Valid t zone (zone t)
  | None => Invalid
  end.

Definition zoneReadings (env : Env) : nat :=
  match pacific env with
  | Some _ => 1
  | None => 2
  end.

(** The state after [n] readings of the clock. *)
Definition ticks (n : nat) (st : State) : State := Nat.iter n tick st.

(** A day number that the code holds exactly: a safe integer. *)
Definition safeInteger (n : Z) : Prop := - 2 ^ 53 < n < 2 ^ 53.

(** The state in which [getOpeningTime] leaves a text that it parsed or
    tried to parse: the attempt is logged, and the clock is read [n] times. *)
Definition afterAttempt (text : string) (n : nat) (st : State) : State :=
  Nat.iter n tick (record [ELog (LogAttempt (Some (JStr text)))] st).

(** The zone's wall clock does show the time [local]: it is reached with
    the offset [o] in force now or with the offset in force around then, so
    that [local] does not fall into the hour that a change to daylight time
    skips. *)
Definition wallClockShows (zone : Zone) (o local : Z) : Prop :=
  zone (local - o * MS_PER_MINUTE) = o
  \/ zone (local - zone (local - o * MS_PER_MINUTE) * MS_PER_MINUTE)
     = zone (local - o * MS_PER_MINUTE).

(** The wall-clock time [h]:00:00.000 on the day that the zone's wall clock
    shows at the instant [t]. *)
Definition todayAt (zone : Zone) (t h : Z) : Z :=
  localTS t (zone t) / MS_PER_DAY * MS_PER_DAY + h * MS_PER_HOUR.

(** The instant that line 93 resolves for a token that reads as the hour
    [h], today being read from the clock at [t]: [h] o'clock, 24 being
    midnight, of the date that the zone's wall clock shows at [t]. *)
Definition openingAt (zone : Zone) (t h : Z) : Z :=
  fst (fixOffset (todayAt zone t (h mod 24)) (zone t) zone).

(** The instant of [OPENING_DATE], and the [k]-th day after it: the
    instants later than [k - 1] days and at most [k] days after the opening. *)
Definition openingInstant : Z := instant 2024 6 22 10 0 (-420).

Definition inWindow (k t : Z) : Prop :=
  openingInstant + (k - 1) * MS_PER_DAY < t <= openingInstant + k * MS_PER_DAY.

(** The day that a wall clock seven hours behind UTC, that of
    [OPENING_DATE], shows at [t], and the instant at which it shows 10:00 on
    the day [d]. *)
Definition epochDay (t : Z) : Z := localTS t (-420) / MS_PER_DAY.

Definition tenOn (d : Z) : Z :=
  d * MS_PER_DAY + 10 * MS_PER_HOUR + 420 * MS_PER_MINUTE.

(** What [getFallbackDaysOpen] computes from a reading [t] of the clock. *)
Definition fallbackDays (t : Z) : Z :=
  Qceiling (- (inject_Z (openingInstant - t) / inject_Z MS_PER_DAY)) + 1.

(** The day that [announce] announces, given the counter row, and the
    state in which it has it. *)
Definition dayNumber (env : Env) (row : option Z) (st : State) : Z :=
  match row with
  | Some n => n
  | None => fallbackDays (clock env (reads st))
  end.

Definition afterDayNumber (row : option Z) (st : State) : State :=
  match row with
  | Some _ => st
  | None => tick st
  end.

(** The events of [announce] up to the request to the notifier. *)
Definition sendEvents (env : Env) (timeout day : Z) : list Event :=
  [EDbFirst PLAZA_BONITA_ID;
   ELog (LogSending (getMessage day) timeout);
   ESetTimeout timeout;
   EWebhookPost (WEBHOOK_ID env) (WEBHOOK_TOKEN env) (getMessage day)].

(** The events that follow an answer of the notifier, up to the request
    to increment the counter. *)
Definition incrementEvents (status day : Z) : list Event :=
  [ELog (LogResponse status);
   ELog (LogUpdating (day + 1));
   EDbRun (day + 1) PLAZA_BONITA_ID].

(** The state after the hours source was asked and answered. *)
Definition fetched : State :=
  record [EFetch (URL_PREFIX ++ Str.ofNumber PLAZA_BONITA_ID); ELog LogStorepointOk]
         initial.

(** The day that the wall clock of America/Los_Angeles shows at [t]. *)
Definition pacificDay (t : Z) : Z := localTS t (losAngeles t) / MS_PER_DAY.

(** The instant of the [DateTime] that a run returned. *)
Definition resolved (r : Outcome DateTime) : option Z :=
  match r with
  | Ret (Valid ts _ _) => Some ts
  | _ => None
  end.

(** The notifier and persistence calls among the events. *)
Definition calls (events : list Event) : list Event :=
  filter isCollaboratorCall events.

(** ** The parser as the specification words it

    Split on [-]; when that does not yield exactly two non-empty parts,
    split on [to] instead; the opening token is the first part, trimmed. *)
Definition twoNonEmptyParts (parts : list string) : bool :=
  match parts with
  | [a; b] => negb (String.eqb a "") && negb (String.eqb b "")
  | _ => false
  end.

Definition spec_times (hours : string) : list string :=
  if twoNonEmptyParts (Str.split "-" hours)
  then Str.split "-" hours
  else Str.split "to" hours.

Definition spec_opening (hours : string) : option string :=
  match spec_times hours with
  | first :: _ => Some (Str.trim first)
  | [] => None
  end.

(** ** Further sample surroundings *)

(** As [sampleEnv], with the notifier unreachable. *)
Definition notifierDown (t : Z) (location : list (string * Json)) (row : option Z) : Env :=
  mkEnv (fun _ => t) (Some losAngeles)
        (FetchResponse 200 (BodyJson (storepointBody location)))
        (FirstValue row) "id" "token" PostFails RunDone.

(** As [sampleEnv], with a clock that advances by a second from each
    reading to the next. *)
Definition tickingEnv (t : Z) (location : list (string * Json)) (row : option Z) : Env :=
  mkEnv (fun k => t + 1000 * Z.of_nat k) (Some losAngeles)
        (FetchResponse 200 (BodyJson (storepointBody location)))
        (FirstValue row) "id" "token" (PostResponse 204) RunDone.

(** The same with the zone unknown to the runtime and the hours source out
    of reach. *)
Definition zonelessEnv (t : Z) (row : option Z) : Env :=
  mkEnv (fun k => t + 1000 * Z.of_nat k) None FetchFails
        (FirstValue row) "id" "token" (PostResponse 204) RunDone.

(** As [sampleEnv], with the read of the counter rejected. *)
Definition counterDown (t : Z) (location : list (string * Json)) : Env :=
  mkEnv (fun _ => t) (Some losAngeles)
        (FetchResponse 200 (BodyJson (storepointBody location)))
        FirstFails "id" "token" (PostResponse 204) RunDone.

(** As [sampleEnv], with the hours source answering [result]. *)
Definition hoursDown (t : Z) (result : FetchResult) (row : option Z) : Env :=
  mkEnv (fun _ => t) (Some losAngeles) result
        (FirstValue row) "id" "token" (PostResponse 204) RunDone.

(** ** Vocabulary of the further properties *)

(** A computation that adds no event of the kind [p] to the trace; one that
    makes no call to the notifier or to the database; and one that returns
    whatever the state: it throws nothing. *)
Definition Silent {A} (p : Event -> bool) (m : M A) : Prop :=
  forall st, filter p (trace (snd (m st))) = filter p (trace st).

Definition Quiet {A} (m : M A) : Prop := Silent isCollaboratorCall m.

Definition Returns {A} (m : M A) : Prop :=
  forall st, exists a st', m st = (Ret a, st').

(** The requests to the hours source among the events. *)
Definition isFetch (e : Event) : bool :=
  match e with
  | EFetch _ => true
  | _ => false
  end.

(** The keys under which the hours of a day are looked up. *)
Definition weekdayKeys : list string :=
  ["monday"; "tuesday"; "wednesday"; "thursday"; "friday"; "saturday"; "sunday"].

(** The payload that the hours source answered with, if it answered. *)
Definition payload (env : Env) : option Json :=
  match storepoint env with
  | FetchResponse status (BodyJson data) =>
      if ok status && successFlag data then Some data else None
  | _ => None
  end.

(** The calls of an invocation that read the counter, waited [timeout],
    posted the message of [day] and requested the write of [day + 1]. *)
Definition fullCalls (env : Env) (timeout day : Z) : list Event :=
  [EDbFirst PLAZA_BONITA_ID;
   ESetTimeout timeout;
   EWebhookPost (WEBHOOK_ID env) (WEBHOOK_TOKEN env) (getMessage day);
   EDbRun (day + 1) PLAZA_BONITA_ID].

(* ================================================================== *)
(** * Strings: lemmas *)
(* ================================================================== *)

Example split_dash : Str.split "-" "10AM - 2AM" = ["10AM "; " 2AM"].
Proof. reflexivity. Qed.

Example split_to : Str.split "to" "10am to 2am" = ["10am "; " 2am"].
Proof. reflexivity. Qed.

Example split_empty : Str.split "-" "" = [""].
Proof. reflexivity. Qed.

Example split_edges : Str.split "-" "-a--" = [""; "a"; ""; ""].
Proof. reflexivity. Qed.

Example trim_both : Str.trim "  10 am	" = "10 am".
Proof. reflexivity. Qed.

Example ofNumber_samples :
  Str.ofNumber 7 = "7" /\ Str.ofNumber 0 = "0" /\ Str.ofNumber (-12) = "-12".
Proof. repeat split; reflexivity. Qed.

Lemma append_empty_r (s : string) : (s ++ "")%string = s.
Proof. induction s as [|c s IH]; simpl; [reflexivity | now rewrite IH]. Qed.

Lemma append_snoc (s t : string) (c : ascii) :
  ((s ++ String c "") ++ t)%string = (s ++ String c t)%string.
Proof. induction s as [|d s IH]; simpl; [reflexivity | now rewrite IH]. Qed.

Lemma prefix_dash (c : ascii) (s : string) :
  prefix "-" (String c s) = Ascii.eqb "-" c.
Proof.
  cbn [prefix]. destruct (ascii_dec "-" c) as [E|N].
  - rewrite <- E, Ascii.eqb_refl. now destruct s.
  - symmetry. now apply Ascii.eqb_neq.
Qed.

(** Splitting on a dash yields one part more than there are dashes. *)
Lemma split_from_dash_length (s cur : string) :
  List.length (Str.split_from "-" 0 cur s) = S (Str.count "-" s).
Proof.
  revert cur. induction s as [|c s IH]; intro cur.
  - reflexivity.
  - cbn [Str.split_from Str.count]. rewrite prefix_dash.
    destruct (Ascii.eqb "-" c); cbn [String.length Nat.pred List.length];
      rewrite IH; reflexivity.
Qed.

Lemma split_dash_length (s : string) :
  List.length (Str.split "-" s) = S (Str.count "-" s).
Proof. apply split_from_dash_length. Qed.

(** The first part of a split is the text before the first separator. *)
Lemma split_from_first (sep s cur : string) :
  exists rest,
    Str.split_from sep 0 cur s = (cur ++ Str.before sep s)%string :: rest.
Proof.
  revert cur. induction s as [|c s IH]; intro cur.
  - exists []. cbn. now rewrite append_empty_r.
  - cbn [Str.split_from Str.before]. destruct (prefix sep (String c s)).
    + eexists. now rewrite append_empty_r.
    + destruct (IH (cur ++ String c "")%string) as [rest E].
      exists rest. rewrite E. now rewrite append_snoc.
Qed.

Lemma split_first (sep s : string) :
  exists rest, Str.split sep s = Str.before sep s :: rest.
Proof. exact (split_from_first sep s ""). Qed.

(* ================================================================== *)
(** * The opening token *)
(* ================================================================== *)

(** The opening token is never missing: a split has a first part. *)
Lemma opening_defined (hours : string) : exists token, opening hours = Some token.
Proof.
  unfold opening, times.
  destruct (negb (Nat.eqb (List.length (Str.split "-" hours)) 2)).
  - destruct (split_first "to" hours) as [rest ->]. eauto.
  - destruct (split_first "-" hours) as [rest ->]. eauto.
Qed.

(** C4, as amended.  The parser splits on [-] and falls back to splitting
    on [to] exactly when the [-] split does not yield exactly two parts,
    that is when the text does not hold exactly one [-]; whether the two
    parts are empty plays no role.  The opening token is the first part,
    the text before the first separator, with surrounding white space
    trimmed. *)
Theorem C4_opening_token (hours : string) :
  Nat.eqb (List.length (Str.split "-" hours)) 2 = Nat.eqb (Str.count "-" hours) 1
  /\ times hours
     = (if Nat.eqb (Str.count "-" hours) 1
        then Str.split "-" hours else Str.split "to" hours)
  /\ opening hours
     = Some (Str.trim
               (Str.before (if Nat.eqb (Str.count "-" hours) 1 then "-" else "to")
                           hours)).
Proof.
  assert (L : Nat.eqb (List.length (Str.split "-" hours)) 2
              = Nat.eqb (Str.count "-" hours) 1)
    by (rewrite split_dash_length; reflexivity).
  split; [exact L|].
  unfold opening, times. rewrite L.
  destruct (Nat.eqb (Str.count "-" hours) 1); cbn [negb].
  - split; [reflexivity|]. now destruct (split_first "-" hours) as [rest ->].
  - split; [reflexivity|]. now destruct (split_first "to" hours) as [rest ->].
Qed.

(** C4, as the specification words it, fails: the text [10am to 2am-] has
    one dash, so the code keeps the [-] split although its second part is
    empty, and takes [10am to 2am] for the opening token, where the worded
    rule falls back to [to] and takes [10am]. *)
Lemma C4_counterexample :
  opening "10am to 2am-" = Some "10am to 2am"
  /\ spec_opening "10am to 2am-" = Some "10am"
  /\ opening "10am to 2am-" <> spec_opening "10am to 2am-".
Proof. repeat split; try reflexivity. discriminate. Qed.

(** On the three formats in use the two readings agree. *)
Example opening_known_formats :
  map opening ["10AM - 2AM"; "10am-2am"; "10am to 2am"]
  = [Some "10AM"; Some "10am"; Some "10am"]
  /\ map spec_opening ["10AM - 2AM"; "10am-2am"; "10am to 2am"]
     = [Some "10AM"; Some "10am"; Some "10am"].
Proof. split; reflexivity. Qed.

Example parsedHour_samples :
  map (parsedHour ha) ["10AM"; "10am"; "9pm"; "12am"; "12PM"; "10 am"; "closed"; "100am"; "25am"]
  = [Some 10; Some 10; Some 21; Some 0; Some 12; None; None; None; None]
  /\ map (parsedHour h_a) ["10 AM"; "10am"; "10  am"; "7 pm"]
     = [Some 10; None; None; Some 19].
Proof. split; reflexivity. Qed.

(* ================================================================== *)
(** * Wall-clock arithmetic *)
(* ================================================================== *)

Lemma day_time_split (d r : Z) :
  0 <= r < MS_PER_DAY ->
  (d * MS_PER_DAY + r) / MS_PER_DAY = d /\ (d * MS_PER_DAY + r) mod MS_PER_DAY = r.
Proof.
  unfold MS_PER_DAY. intro H. split.
  - rewrite Z.div_add_l by lia. rewrite Z.div_small by lia. lia.
  - rewrite Z.add_comm, Z.mod_add by lia. apply Z.mod_small; lia.
Qed.

(** What a wall clock shows at [h]:00:00.000. *)
Lemma fields_on_the_hour (zone : Zone) (ts o d h : Z) :
  0 <= h < 24 ->
  localTS ts o = d * MS_PER_DAY + h * MS_PER_HOUR ->
  let dt := Valid ts zone o in
  localDay dt = Some d /\ hour dt = Some h /\ minute dt = Some 0
  /\ second dt = Some 0 /\ millisecond dt = Some 0.
Proof.
  intros Hh E dt. unfold dt, localDay, hour, minute, second, millisecond, msOfDay.
  rewrite E.
  destruct (day_time_split d (h * MS_PER_HOUR)) as [-> ->];
    [unfold MS_PER_DAY, MS_PER_HOUR; lia|].
  unfold MS_PER_HOUR, MS_PER_MINUTE.
  rewrite Z.div_mul, Z.mod_mul by lia.
  replace (h * 3600000) with (h * 60 * 60000) by ring. rewrite Z.mod_mul by lia.
  replace (h * 60 * 60000) with (h * 3600 * 1000) by ring. rewrite Z.mod_mul by lia.
  repeat split; reflexivity.
Qed.

(** The time fields of what [fromFormat] parsed at the hour [h]: 24 is
    midnight of the day after. *)
Lemma parsed_fields (d h : Z) :
  0 <= h <= 24 ->
  let dt := Valid (d * MS_PER_DAY + h * MS_PER_HOUR) utc 0 in
  hour dt = Some (h mod 24) /\ minute dt = Some 0
  /\ second dt = Some 0 /\ millisecond dt = Some 0.
Proof.
  intros R dt. destruct (Z.eq_dec h 24) as [->|N].
  - destruct (fields_on_the_hour utc (d * MS_PER_DAY + 24 * MS_PER_HOUR) 0 (d + 1) 0)
      as (_ & F); [lia | unfold localTS, MS_PER_DAY, MS_PER_HOUR; lia |].
    exact F.
  - rewrite Z.mod_small by lia.
    destruct (fields_on_the_hour utc (d * MS_PER_DAY + h * MS_PER_HOUR) 0 d h)
      as (_ & F); [lia | unfold localTS; lia |].
    exact F.
Qed.

(** [fixOffset] finds an instant at which the wall clock shows [local],
    whenever the wall clock shows it. *)
Lemma fixOffset_shows (zone : Zone) (o local : Z) :
  wallClockShows zone o local ->
  localTS (fst (fixOffset local o zone)) (snd (fixOffset local o zone)) = local.
Proof.
  unfold wallClockShows, fixOffset, localTS. intro H.
  destruct (Z.eqb_spec o (zone (local - o * MS_PER_MINUTE))) as [E|N]; cbn [fst snd].
  - lia.
  - replace (local - o * MS_PER_MINUTE
             - (zone (local - o * MS_PER_MINUTE) - o) * MS_PER_MINUTE)
      with (local - zone (local - o * MS_PER_MINUTE) * MS_PER_MINUTE) by ring.
    destruct (Z.eqb_spec (zone (local - o * MS_PER_MINUTE))
                (zone (local - zone (local - o * MS_PER_MINUTE) * MS_PER_MINUTE)))
      as [E'|N']; cbn [fst snd].
    + lia.
    + destruct H as [H|H]; congruence.
Qed.

Example instants :
  openingInstant = 1719075600000
  /\ instant 2024 6 24 9 0 (-420) = 1719244800000
  /\ instant 1970 1 1 0 0 0 = 0.
Proof. repeat split; reflexivity. Qed.

(** On 2025-03-09 the clocks of Los Angeles go from 02:00 to 03:00; at 01:00
    that day, 10:00 is still shown, at the new offset. *)
Example ten_oclock_on_a_change_day :
  let t := instant 2025 3 9 1 0 (-480) in
  losAngeles t = -480
  /\ wallClockShows losAngeles (losAngeles t) (todayAt losAngeles t 10)
  /\ fixOffset (todayAt losAngeles t 10) (losAngeles t) losAngeles
     = (instant 2025 3 9 10 0 (-420), -420).
Proof. repeat split; try reflexivity. right. reflexivity. Qed.

(** The offset of Los Angeles changes at 09:00 or at 10:00 UTC, never
    between 17:00 and 18:00 UTC, the two instants at which its wall clock can
    show 10:00. *)
Lemma leb_afternoon (q d h : Z) :
  0 <= h <= 10 ->
  (q * MS_PER_DAY + h * MS_PER_HOUR + (0 - 0) * MS_PER_MINUTE
   <=? d * MS_PER_DAY + 17 * MS_PER_HOUR)
  = (q * MS_PER_DAY + h * MS_PER_HOUR + (0 - 0) * MS_PER_MINUTE
     <=? d * MS_PER_DAY + 18 * MS_PER_HOUR).
Proof.
  unfold MS_PER_DAY, MS_PER_HOUR, MS_PER_MINUTE. intro H.
  destruct (Z.leb_spec (q * 86400000 + h * 3600000 + (0 - 0) * 60000)
                       (d * 86400000 + 17 * 3600000));
    destruct (Z.leb_spec (q * 86400000 + h * 3600000 + (0 - 0) * 60000)
                         (d * 86400000 + 18 * 3600000));
    try reflexivity; lia.
Qed.

Lemma ltb_afternoon (q d h : Z) :
  0 <= h <= 10 ->
  (d * MS_PER_DAY + 17 * MS_PER_HOUR
   <? q * MS_PER_DAY + h * MS_PER_HOUR + (0 - 0) * MS_PER_MINUTE)
  = (d * MS_PER_DAY + 18 * MS_PER_HOUR
     <? q * MS_PER_DAY + h * MS_PER_HOUR + (0 - 0) * MS_PER_MINUTE).
Proof.
  unfold MS_PER_DAY, MS_PER_HOUR, MS_PER_MINUTE. intro H.
  destruct (Z.ltb_spec (d * 86400000 + 17 * 3600000)
                       (q * 86400000 + h * 3600000 + (0 - 0) * 60000));
    destruct (Z.ltb_spec (d * 86400000 + 18 * 3600000)
                         (q * 86400000 + h * 3600000 + (0 - 0) * 60000));
    try reflexivity; lia.
Qed.

Lemma losAngeles_afternoon (d : Z) :
  losAngeles (d * MS_PER_DAY + 17 * MS_PER_HOUR)
  = losAngeles (d * MS_PER_DAY + 18 * MS_PER_HOUR).
Proof.
  unfold losAngeles, instant.
  rewrite !leb_afternoon, !ltb_afternoon by lia. reflexivity.
Qed.

Lemma losAngeles_offsets (t : Z) : losAngeles t = -420 \/ losAngeles t = -480.
Proof.
  unfold losAngeles.
  match goal with |- context [if ?b then _ else _] => destruct b end; auto.
Qed.

(** In Los Angeles the wall clock shows 10:00 on every day. *)
Lemma losAngeles_shows_ten (t : Z) :
  wallClockShows losAngeles (losAngeles t) (todayAt losAngeles t 10).
Proof.
  unfold wallClockShows, todayAt.
  set (d := localTS t (losAngeles t) / MS_PER_DAY).
  assert (E17 : forall x, x = -420 ->
                d * MS_PER_DAY + 10 * MS_PER_HOUR - x * MS_PER_MINUTE
                = d * MS_PER_DAY + 17 * MS_PER_HOUR)
    by (intros x ->; unfold MS_PER_DAY, MS_PER_HOUR, MS_PER_MINUTE; lia).
  assert (E18 : forall x, x = -480 ->
                d * MS_PER_DAY + 10 * MS_PER_HOUR - x * MS_PER_MINUTE
                = d * MS_PER_DAY + 18 * MS_PER_HOUR)
    by (intros x ->; unfold MS_PER_DAY, MS_PER_HOUR, MS_PER_MINUTE; lia).
  destruct (losAngeles_offsets t) as [E|E].
  - rewrite (E17 _ E).
    destruct (losAngeles_offsets (d * MS_PER_DAY + 17 * MS_PER_HOUR)) as [E2|E2].
    + left. congruence.
    + right. rewrite (E18 _ E2), <- losAngeles_afternoon. reflexivity.
  - rewrite (E18 _ E).
    destruct (losAngeles_offsets (d * MS_PER_DAY + 18 * MS_PER_HOUR)) as [E2|E2].
    + right. rewrite (E17 _ E2), losAngeles_afternoon. reflexivity.
    + left. congruence.
Qed.

(* ================================================================== *)
(** * Running the parts of the program *)
(* ================================================================== *)

Lemma record_record (es es' : list Event) (st : State) :
  record es' (record es st) = record (es ++ es') st.
Proof. unfold record. cbn. now rewrite app_assoc. Qed.

Lemma tick_record (es : list Event) (st : State) :
  tick (record es st) = record es (tick st).
Proof. reflexivity. Qed.

Lemma reads_record (es : list Event) (st : State) : reads (record es st) = reads st.
Proof. reflexivity. Qed.

Lemma trace_record_initial (es : list Event) (n : nat) :
  trace (record es (mkState n [])) = es.
Proof. reflexivity. Qed.

(** Unfolding of the monad. *)
Ltac run :=
  unfold bind, tryCatch, ret, throw, throwError, when, log, emit, readClock;
  cbn beta iota.

Lemma ticks_add (n m : nat) (st : State) : ticks n (ticks m st) = ticks (n + m) st.
Proof. unfold ticks. symmetry. apply Nat.iter_add. Qed.

Lemma ticks_eq (n m : nat) (st : State) : n = m -> ticks n st = ticks m st.
Proof. now intros ->. Qed.

Lemma reads_ticks (n : nat) (st : State) : reads (ticks n st) = (n + reads st)%nat.
Proof. induction n as [|n IH]; cbn; [reflexivity | now rewrite <- IH]. Qed.

Lemma trace_ticks (n : nat) (st : State) : trace (ticks n st) = trace st.
Proof. induction n as [|n IH]; cbn; [reflexivity | exact IH]. Qed.

Lemma afterAttempt_ticks (text : string) (n : nat) (st : State) :
  afterAttempt text n st = ticks n (record [ELog (LogAttempt (Some (JStr text)))] st).
Proof. reflexivity. Qed.

Lemma getTodayPT_run (env : Env) (st : State) :
  getTodayPT env st
  = (Ret (todayIn env (clock env (reads st))), ticks (zoneReadings env) st).
Proof.
  unfold getTodayPT, now, setZone, todayIn, zoneReadings. run.
  now destruct (pacific env).
Qed.

Lemma getTodayPT_known (env : Env) (zone : Zone) (st : State) :
  pacific env = Some zone ->
  getTodayPT env st
  = (Ret (Valid (clock env (reads st)) zone (zone (clock env (reads st)))), tick st).
Proof.
  intro H. rewrite getTodayPT_run. unfold todayIn, zoneReadings. now rewrite H.
Qed.

(** With the zone unknown, today is invalid, and has cost two readings. *)
Lemma getTodayPT_unknown (env : Env) (st : State) :
  pacific env = None -> getTodayPT env st = (Ret Invalid, tick (tick st)).
Proof.
  intro H. rewrite getTodayPT_run. unfold todayIn, zoneReadings. now rewrite H.
Qed.

Lemma weekdayLong_defined (zone : Zone) (t : Z) :
  option_map Str.toLowerCase (weekdayLong (Valid t zone (zone t)))
  = Some (dayName zone t).
Proof.
  unfold weekdayLong, localDay, dayName.
  rewrite (nth_error_nth' weekdayNames "").
  - reflexivity.
  - cbn [List.length weekdayNames].
    pose proof (Z.mod_pos_bound (localTS t (zone t) / MS_PER_DAY + 3) 7). lia.
Qed.

Lemma getCurrentDayOfWeekPT_run (env : Env) (zone : Zone) (st : State) :
  pacific env = Some zone ->
  getCurrentDayOfWeekPT env st = (Ret (dayName zone (clock env (reads st))), tick st).
Proof.
  intro H. unfold getCurrentDayOfWeekPT, bind.
  rewrite (getTodayPT_known env zone st H).
  pose proof (weekdayLong_defined zone (clock env (reads st))) as W.
  destruct (weekdayLong _); cbn [option_map] in W; [|discriminate].
  injection W as W. now rewrite <- W.
Qed.

(** The hours source answered: [getBusinessHours] returns the payload. *)
Lemma getBusinessHours_answers (env : Env) (data : Json) (id : Z) (st : State) :
  answers env data ->
  getBusinessHours env id st
  = (Ret (Some data),
     record [EFetch (URL_PREFIX ++ Str.ofNumber id); ELog LogStorepointOk] st).
Proof.
  intros (status & members & F & O & -> & T).
  unfold getBusinessHours, fetch, json, getProp. run. rewrite F. cbn.
  rewrite O, T. cbn. now rewrite record_record.
Qed.

(** The fetch failed: [getBusinessHours] logs the error and returns
    [undefined]. *)
Lemma getBusinessHours_fails (env : Env) (id : Z) (st : State) :
  FetchFailure env ->
  exists err,
    getBusinessHours env id st
    = (Ret None,
       record [EFetch (URL_PREFIX ++ Str.ofNumber id); ELog (LogErr err)] st).
Proof.
  intros [F | status body F O | status F | status data F S];
    unfold getBusinessHours, fetch, json, getProp; run; rewrite F; cbn.
  - eexists. now rewrite record_record.
  - destruct body as [|data]; cbn.
    + eexists. now rewrite record_record.
    + rewrite O. cbn. eexists. now rewrite record_record.
  - eexists. now rewrite record_record.
  - destruct (ok status); cbn.
    + destruct data; cbn in *; try rewrite S; cbn;
        repeat match goal with
               | |- context [existsb ?f ?l] => destruct (existsb f l); cbn
               end;
        eexists; now rewrite record_record.
    + eexists. now rewrite record_record.
Qed.

(** The fetch fails or the source answers, and never both. *)
Lemma fetch_fails_or_answers (env : Env) :
  FetchFailure env \/ exists data, answers env data.
Proof.
  destruct (storepoint env) as [|status body] eqn:F.
  - left. now apply NetworkError.
  - destruct (ok status) eqn:O; [|left; now apply (BadStatus env status body)].
    destruct body as [|data]; [left; now apply (MalformedPayload env status)|].
    destruct (successFlag data) eqn:S; [|left; now apply (SuccessFalse env status data)].
    right. exists data. destruct data; try discriminate. now exists status, members.
Qed.

(** [fromFormat], by what the text denotes in the format. *)
Lemma fromFormat_run (env : Env) (text : string) (fmt : Format) (st : State) :
  fromFormat env text fmt st
  = (Ret match parsedHour fmt text with
         | Some h =>
             Valid (clock env (reads st) / MS_PER_DAY * MS_PER_DAY + h * MS_PER_HOUR)
                   utc 0
         | None => Invalid
         end,
     ticks (formatReadings fmt text) st).
Proof.
  unfold fromFormat, formatReadings, parsedHour. run.
  destruct (explain fmt text) as [[h a]|]; [|reflexivity].
  now destruct ((0 <=? hour24 h a) && (hour24 h a <=? 24)).
Qed.

Lemma formatReadings_parsed (fmt : Format) (text : string) (h : Z) :
  parsedHour fmt text = Some h -> formatReadings fmt text = 1%nat.
Proof.
  unfold formatReadings. intros ->. now destruct (explain fmt text).
Qed.

Lemma parsedHour_range (fmt : Format) (text : string) (h : Z) :
  parsedHour fmt text = Some h -> 0 <= h <= 24.
Proof.
  unfold parsedHour. destruct (explain fmt text) as [[h0 a]|]; [|discriminate].
  destruct ((0 <=? hour24 h0 a) && (hour24 h0 a <=? 24)) eqn:R; [|discriminate].
  intros [= <-]. apply andb_prop in R. lia.
Qed.

Lemma firstHour_range (token : string) (h : Z) :
  firstHour token = Some h -> 0 <= h <= 24.
Proof.
  unfold firstHour. destruct (parsedHour ha token) as [h1|] eqn:P.
  - intros [= <-]. exact (parsedHour_range _ _ _ P).
  - apply parsedHour_range.
Qed.

(** A token that fails both formats: [set] is given [NaN] and throws. *)
Lemma getOpeningTime_failed (env : Env) (zone : Zone) (text token : string)
      (st : State) :
  pacific env = Some zone ->
  opening text = Some token ->
  parsedHour ha token = None ->
  parsedHour h_a token = None ->
  getOpeningTime env (Some (JStr text)) st
  = (Throw InvalidArgumentError, afterAttempt text (S (parseReadings token)) st).
Proof.
  intros Z O P1 P2.
  unfold getOpeningTime. run. rewrite O.
  rewrite fromFormat_run, P1. cbn [isValid negb].
  rewrite fromFormat_run, P2.
  rewrite (getTodayPT_known env zone _ Z).
  unfold set, hour, throw. f_equal.
  unfold parseReadings. rewrite P1, afterAttempt_ticks, ticks_add.
  change (tick (ticks ?n ?x)) with (ticks (S n) x).
  apply ticks_eq. lia.
Qed.

Lemma getOpeningTime_unparseable (env : Env) (zone : Zone) (text : string) (st : State) :
  pacific env = Some zone ->
  unparseable text ->
  exists n,
    getOpeningTime env (Some (JStr text)) st
    = (Throw InvalidArgumentError, afterAttempt text n st).
Proof.
  intros Z (token & O & P1 & P2). eexists.
  exact (getOpeningTime_failed env zone text token st Z O P1 P2).
Qed.

(** A token with an hour: the hour is read in the first format that gives
    one, at the last reading of the clock that the parse makes, and put on
    today's date, taken at the next reading. *)
Lemma getOpeningTime_parsed (env : Env) (zone : Zone) (text token : string) (h : Z)
      (st : State) :
  pacific env = Some zone ->
  opening text = Some token ->
  firstHour token = Some h ->
  let p := parseReadings token in
  let parsed :=
    Valid (clock env (Nat.pred p + reads st) / MS_PER_DAY * MS_PER_DAY
           + h * MS_PER_HOUR) utc 0 in
  let t := clock env (p + reads st) in
  getOpeningTime env (Some (JStr text)) st
  = set (Valid t zone (zone t)) (hour parsed) (minute parsed) (second parsed)
        (millisecond parsed) (afterAttempt text (S p) st).
Proof.
  intros Z O P p parsed t. subst p parsed t.
  unfold getOpeningTime. run. rewrite O.
  unfold firstHour in P. unfold parseReadings.
  destruct (parsedHour ha token) as [h1|] eqn:P1.
  - injection P as ->.
    rewrite fromFormat_run, P1, (formatReadings_parsed _ _ _ P1). cbn [isValid negb].
    rewrite (getTodayPT_known env zone _ Z). reflexivity.
  - rewrite fromFormat_run, P1. cbn [isValid negb].
    rewrite fromFormat_run, P, (formatReadings_parsed _ _ _ P).
    rewrite (getTodayPT_known env zone _ Z).
    rewrite !reads_ticks.
    change (reads (record [ELog (LogAttempt (Some (JStr text)))] st)) with (reads st).
    replace (Nat.pred (formatReadings ha token + 1) + reads st)%nat
      with (formatReadings ha token + reads st)%nat by lia.
    replace (formatReadings ha token + 1 + reads st)%nat
      with (1 + (formatReadings ha token + reads st))%nat by lia.
    rewrite afterAttempt_ticks, ticks_add.
    change (tick (ticks ?n ?x)) with (ticks (S n) x).
    rewrite (ticks_eq (S (1 + formatReadings ha token))
                      (S (formatReadings ha token + 1))) by lia.
    reflexivity.
Qed.

(** A token with an hour: the opening time is that hour of today's date,
    today being read from the clock after the token is parsed. *)
Lemma getOpeningTime_resolved (env : Env) (zone : Zone) (text token : string) (h : Z)
      (st : State) :
  pacific env = Some zone ->
  opening text = Some token ->
  firstHour token = Some h ->
  let p := parseReadings token in
  let t := clock env (p + reads st) in
  let fixed := fixOffset (todayAt zone t (h mod 24)) (zone t) zone in
  getOpeningTime env (Some (JStr text)) st
  = (Ret (Valid (fst fixed) zone (snd fixed)), afterAttempt text (S p) st).
Proof.
  intros Z O F p t fixed.
  rewrite (getOpeningTime_parsed env zone text token h st Z O F). cbn zeta.
  destruct (parsed_fields
              (clock env (Nat.pred (parseReadings token) + reads st) / MS_PER_DAY) h
              (firstHour_range token h F)) as (E1 & E2 & E3 & E4).
  cbn zeta in E1, E2, E3, E4. rewrite E1, E2, E3, E4.
  unfold set. fold p. fold t.
  replace (localTS t (zone t) / MS_PER_DAY * MS_PER_DAY
           + h mod 24 * MS_PER_HOUR + 0 * MS_PER_MINUTE + 0 * 1000 + 0)
    with (todayAt zone t (h mod 24)) by (unfold todayAt; ring).
  fold fixed. now destruct fixed.
Qed.

Lemma reads_afterAttempt (text : string) (n : nat) (st : State) :
  reads (afterAttempt text n st) = (n + reads st)%nat.
Proof. rewrite afterAttempt_ticks, reads_ticks. reflexivity. Qed.

Lemma trace_afterAttempt (text : string) (n : nat) (st : State) :
  trace (afterAttempt text n st)
  = (trace st ++ [ELog (LogAttempt (Some (JStr text)))])%list.
Proof. rewrite afterAttempt_ticks, trace_ticks. reflexivity. Qed.

Lemma parseable_firstHour (text : string) :
  parseable text <->
  exists token h, opening text = Some token /\ firstHour token = Some h.
Proof.
  unfold parseable, firstHour. split.
  - intros (token & h & O & [P|P]); exists token.
    + exists h. now rewrite P.
    + destruct (parsedHour ha token) as [h1|]; eauto.
  - intros (token & h & O & P). exists token, h. split; [exact O|].
    destruct (parsedHour ha token); auto.
Qed.

(** Anything but a string has no [split] to call. *)
Lemma getOpeningTime_not_a_string (env : Env) (hours : JsVal) (st : State) :
  (forall text, hours <> Some (JStr text)) ->
  exists st', getOpeningTime env hours st = (Throw TypeError, st')
              /\ reads st' = reads st
              /\ calls (trace st') = calls (trace st).
Proof.
  intro N. unfold getOpeningTime, calls.
  destruct hours as [[| b | q | s | items | members]|]; try (now destruct (N s));
    run; cbn [toStringThrows];
    try (eexists; split; [reflexivity|]; split; [reflexivity|];
         cbn; rewrite filter_app; cbn; now rewrite app_nil_r).
  all: match goal with
       | |- context [existsb ?f ?l] => destruct (existsb f l)
       end; cbn;
    eexists; (split; [reflexivity|]); (split; [reflexivity|]);
    cbn; rewrite ?filter_app; cbn; now rewrite ?app_nil_r.
Qed.

Lemma hoursMap_shape (data : Json) (location : list (string * Json)) :
  hoursMap data = Some location ->
  exists members results,
    data = JObj members
    /\ lookup "results" members = Some (JObj results)
    /\ lookup "location" results = Some (JObj location).
Proof.
  unfold hoursMap. destruct data as [| | | | |members]; try discriminate.
  destruct (lookup "results" members) as [[| | | | |results]|] eqn:R; try discriminate.
  destruct (lookup "location" results) as [[| | | | |l]|] eqn:L; try discriminate.
  intros [= ->]. now exists members, results.
Qed.

(** The opening time was resolved: the timeout is its instant minus the
    next reading of the clock. *)
Lemma getTimeout_resolved (env : Env) (zone : Zone) (data : Json)
      (location : list (string * Json)) (text : string) (ts o : Z) (st st1 : State) :
  pacific env = Some zone ->
  hoursMap data = Some location ->
  lookup (dayName zone (clock env (reads st))) location = Some (JStr text) ->
  getOpeningTime env (Some (JStr text)) (tick st) = (Ret (Valid ts zone o), st1) ->
  getTimeout env data st = (Ret (Some (ts - clock env (reads st1))), tick st1).
Proof.
  intros Z H L G. apply hoursMap_shape in H as (members & results & -> & R & Lo).
  unfold getTimeout, tryCatch, bind. cbn [getProp ret].
  rewrite R. cbn [getProp ret]. rewrite Lo.
  rewrite (getCurrentDayOfWeekPT_run env zone st Z). cbn [getProp ret].
  rewrite L, G. reflexivity.
Qed.

(** Resolving the opening time threw: the error is logged and the timeout
    is [undefined]. *)
Lemma getTimeout_thrown (env : Env) (zone : Zone) (data : Json)
      (location : list (string * Json)) (e : Exn) (st st1 : State) :
  pacific env = Some zone ->
  hoursMap data = Some location ->
  getOpeningTime env (lookup (dayName zone (clock env (reads st))) location) (tick st)
  = (Throw e, st1) ->
  getTimeout env data st = (Ret None, record [ELog (LogErr e)] st1).
Proof.
  intros Z H G. apply hoursMap_shape in H as (members & results & -> & R & Lo).
  unfold getTimeout, tryCatch, bind. cbn [getProp ret].
  rewrite R. cbn [getProp ret]. rewrite Lo.
  rewrite (getCurrentDayOfWeekPT_run env zone st Z). cbn [getProp ret].
  rewrite G. reflexivity.
Qed.

Lemma getFallbackDaysOpen_run (env : Env) (st : State) :
  getFallbackDaysOpen env st = (Ret (fallbackDays (clock env (reads st))), tick st).
Proof. reflexivity. Qed.

(** [announce], by what the collaborators answer. *)
Lemma announce_run (env : Env) (timeout : Z) (st : State) :
  announce env timeout st
  = match DB_first env with
    | FirstFails => (Throw D1Rejected, record [EDbFirst PLAZA_BONITA_ID] st)
    | FirstValue row =>
        let day := dayNumber env row st in
        let st' := afterDayNumber row st in
        match discord env with
        | PostFails => (Throw FetchRejected, record (sendEvents env timeout day) st')
        | PostResponse status =>
            let es := (sendEvents env timeout day ++ incrementEvents status day)%list in
            match DB_run env with
            | RunFails => (Throw D1Rejected, record es st')
            | RunDone => (Ret tt, record (es ++ [ELog LogUpdateInfo])%list st')
            end
        end
    end.
Proof.
  unfold announce, first, sendDiscordMessage, run, setTimeout. run.
  destruct (DB_first env) as [|row]; [reflexivity|].
  destruct row as [n|]; cbn [dayNumber afterDayNumber ret];
    [|rewrite getFallbackDaysOpen_run; rewrite tick_record];
    destruct (discord env) as [|status];
    rewrite ?record_record; try reflexivity;
    destruct (DB_run env); rewrite ?record_record; reflexivity.
Qed.

(** [scheduled] after an answer of the hours source. *)
Lemma scheduled_answers (env : Env) (data : Json) (timeout : option Z) (st : State) :
  answers env data ->
  getTimeout env data fetched = (Ret timeout, st) ->
  scheduled env initial
  = match timeout with
    | Some timeout => announce env timeout st
    | None => if toStringThrows data
              then (Throw TypeError, st)
              else (Ret tt, record [ELog LogClosed] st)
    end.
Proof.
  intros A G. unfold scheduled, bind.
  rewrite (getBusinessHours_answers env data _ _ A). fold fetched. rewrite G.
  destruct timeout; [reflexivity|]. now destruct (toStringThrows data).
Qed.

(** [scheduled] after a failed fetch of the hours. *)
Lemma scheduled_fetch_failure (env : Env) :
  FetchFailure env ->
  exists err,
    let st := record [EFetch (URL_PREFIX ++ Str.ofNumber PLAZA_BONITA_ID);
                      ELog (LogErr err)] initial in
    scheduled env initial
    = match getFallbackTimeout env st with
      | (Ret timeout, st') => announce env timeout st'
      | (Throw e, st') => (Throw e, st')
      end.
Proof.
  intro F. destruct (getBusinessHours_fails env PLAZA_BONITA_ID initial F) as [err E].
  exists err. cbn zeta. unfold scheduled, bind at 1 2. rewrite E. unfold bind, ret.
  now destruct (getFallbackTimeout env _) as [[t|e] st'].
Qed.

Lemma fixOffset_in_force (zone : Zone) (o local : Z) :
  wallClockShows zone o local ->
  zone (fst (fixOffset local o zone)) = snd (fixOffset local o zone).
Proof.
  unfold wallClockShows, fixOffset. intro H.
  destruct (Z.eqb_spec o (zone (local - o * MS_PER_MINUTE))) as [E|N]; cbn [fst snd].
  - now symmetry.
  - replace (local - o * MS_PER_MINUTE
             - (zone (local - o * MS_PER_MINUTE) - o) * MS_PER_MINUTE)
      with (local - zone (local - o * MS_PER_MINUTE) * MS_PER_MINUTE) by ring.
    destruct (Z.eqb_spec (zone (local - o * MS_PER_MINUTE))
                (zone (local - zone (local - o * MS_PER_MINUTE) * MS_PER_MINUTE)))
      as [E'|N']; cbn [fst snd].
    + now symmetry.
    + destruct H as [H|H]; congruence.
Qed.

(** Line 35 with the zone known: today's date at [FALLBACK_HOUR]. *)
Lemma fallbackOpeningTime_known (env : Env) (zone : Zone) (st : State) :
  pacific env = Some zone ->
  let t := clock env (reads st) in
  let fixed := fixOffset (todayAt zone t FALLBACK_HOUR) (zone t) zone in
  fallbackOpeningTime env st = (Ret (Valid (fst fixed) zone (snd fixed)), tick st).
Proof.
  intros Z t fixed. unfold fallbackOpeningTime, bind.
  rewrite (getTodayPT_known env zone st Z).
  unfold set. fold t.
  replace (localTS t (zone t) / MS_PER_DAY * MS_PER_DAY
           + FALLBACK_HOUR * MS_PER_HOUR + 0 * MS_PER_MINUTE + 0 * 1000 + 0)
    with (todayAt zone t FALLBACK_HOUR) by (unfold todayAt; ring).
  fold fixed. now destruct fixed.
Qed.

Lemma getFallbackTimeout_known (env : Env) (zone : Zone) (st : State) :
  pacific env = Some zone ->
  let t := clock env (reads st) in
  getFallbackTimeout env st
  = (Ret (fst (fixOffset (todayAt zone t FALLBACK_HOUR) (zone t) zone)
          - clock env (S (reads st))),
     tick (tick st)).
Proof.
  intros Z t. unfold getFallbackTimeout, bind at 1.
  rewrite (fallbackOpeningTime_known env zone st Z). reflexivity.
Qed.

(** With the zone unknown the clock is read three times: by [now], by the
    invalid [DateTime] that [setZone] makes, and by [diffNow]. *)
Lemma getFallbackTimeout_unknown (env : Env) (st : State) :
  pacific env = None ->
  getFallbackTimeout env st = (Ret FALLBACK_TIMEOUT, tick (tick (tick st))).
Proof.
  intro Z. unfold getFallbackTimeout, fallbackOpeningTime, bind.
  rewrite (getTodayPT_unknown env st Z). reflexivity.
Qed.

(** [getFallbackTimeout] returns a number, whatever the surroundings. *)
Lemma getFallbackTimeout_total (env : Env) (st : State) :
  exists timeout,
    getFallbackTimeout env st = (Ret timeout, ticks (S (zoneReadings env)) st).
Proof.
  unfold zoneReadings. destruct (pacific env) as [zone|] eqn:Z.
  - eexists. exact (getFallbackTimeout_known env zone st Z).
  - eexists. exact (getFallbackTimeout_unknown env st Z).
Qed.

Lemma calls_record (es : list Event) (st : State) :
  calls (trace (record es st)) = (calls (trace st) ++ calls es)%list.
Proof. unfold calls, record. cbn. apply filter_app. Qed.

Lemma calls_tick (st : State) : calls (trace (tick st)) = calls (trace st).
Proof. reflexivity. Qed.

(** The calls of [announce] when the counter row is read. *)
Lemma announce_calls (env : Env) (timeout : Z) (row : option Z) (st : State) :
  DB_first env = FirstValue row ->
  exists rest,
    calls (trace (snd (announce env timeout st)))
    = (calls (trace st)
       ++ [EDbFirst PLAZA_BONITA_ID; ESetTimeout timeout;
           EWebhookPost (WEBHOOK_ID env) (WEBHOOK_TOKEN env)
                        (getMessage (dayNumber env row st))]
       ++ rest)%list
    /\ (forall status, discord env = PostResponse status ->
        rest = [EDbRun (dayNumber env row st + 1) PLAZA_BONITA_ID]).
Proof.
  intro F. rewrite announce_run, F. cbn zeta.
  assert (T : calls (trace (afterDayNumber row st)) = calls (trace st))
    by now destruct row.
  destruct (discord env) as [|status].
  - exists []. cbn [snd]. rewrite calls_record, T. split; [reflexivity|discriminate].
  - exists [EDbRun (dayNumber env row st + 1) PLAZA_BONITA_ID].
    split; [|reflexivity].
    destruct (DB_run env); cbn [snd]; rewrite calls_record, T; reflexivity.
Qed.

(** The day that [getFallbackDaysOpen] computes, without the rationals. *)
Lemma fallbackDays_floor (t : Z) :
  fallbackDays t = - ((openingInstant - t) / MS_PER_DAY) + 1.
Proof.
  unfold fallbackDays, Qceiling, Qfloor, Qdiv, Qmult, Qinv, Qopp, inject_Z, MS_PER_DAY.
  cbn [Qnum Qden]. rewrite Z.opp_involutive, Z.mul_1_r. reflexivity.
Qed.

Lemma fallbackDays_window (k t : Z) : inWindow k t -> fallbackDays t = k + 1.
Proof.
  unfold inWindow. intro H. rewrite fallbackDays_floor.
  assert (E : (openingInstant - t) / MS_PER_DAY = - k).
  { symmetry. apply Z.div_unique with (r := openingInstant - t + k * MS_PER_DAY);
      unfold MS_PER_DAY in *; lia. }
  rewrite E. lia.
Qed.

(** The days elapsed since the opening, rounded up. *)
Lemma fallbackDays_ceiling (t : Z) :
  fallbackDays t
  = Qceiling (inject_Z (t - openingInstant) / inject_Z MS_PER_DAY) + 1.
Proof.
  rewrite fallbackDays_floor.
  unfold Qceiling, Qfloor, Qdiv, Qmult, Qinv, Qopp, inject_Z, MS_PER_DAY.
  cbn [Qnum Qden]. rewrite Z.mul_1_r. do 3 f_equal. lia.
Qed.

(* ================================================================== *)
(** * The timeout and the skip *)
(* ================================================================== *)

(** C1.  When the hours source answered and the hours map has no member for
    today's weekday, or the opening token of today's hours fails both
    formats, [getTimeout] returns [undefined] and [scheduled] takes the
    branch that skips the day: it logs the attempt and the error, sends no
    notification, and neither reads nor writes the counter.  The invocation
    then ends normally, unless the payload cannot be rendered in the final
    log line. *)
Theorem C1_parse_failure_skips (env : Env) (zone : Zone) (data : Json)
    (location : list (string * Json)) :
  answers env data ->
  pacific env = Some zone ->
  hoursMap data = Some location ->
  (lookup (dayName zone (clock env 0)) location = None
   \/ exists text,
        lookup (dayName zone (clock env 0)) location = Some (JStr text)
        /\ unparseable text) ->
  fst (getTimeout env data fetched) = Ret None
  /\ calls (events env) = []
  /\ outcome env = (if toStringThrows data then Throw TypeError else Ret tt)
  /\ exists err,
       events env
       = ([EFetch (URL_PREFIX ++ Str.ofNumber PLAZA_BONITA_ID);
           ELog LogStorepointOk;
           ELog (LogAttempt (lookup (dayName zone (clock env 0)) location));
           ELog (LogErr err)]
          ++ (if toStringThrows data then [] else [ELog LogClosed]))%list.
Proof.
  intros A Z H C.
  assert (G : exists err st,
             getTimeout env data fetched = (Ret None, st)
             /\ trace st
                = [EFetch (URL_PREFIX ++ Str.ofNumber PLAZA_BONITA_ID);
                   ELog LogStorepointOk;
                   ELog (LogAttempt (lookup (dayName zone (clock env 0)) location));
                   ELog (LogErr err)]).
  { destruct C as [L | (text & L & U)].
    - exists TypeError. eexists. split.
      + eapply (getTimeout_thrown env zone data location TypeError); [exact Z|exact H|].
        change (reads fetched) with 0%nat. rewrite L. reflexivity.
      + rewrite L. reflexivity.
    - destruct (getOpeningTime_unparseable env zone text (tick fetched) Z U) as [n E].
      exists InvalidArgumentError. eexists. split.
      + eapply (getTimeout_thrown env zone data location InvalidArgumentError);
          [exact Z|exact H|].
        change (reads fetched) with 0%nat. rewrite L. exact E.
      + rewrite L, afterAttempt_ticks. unfold record. cbn [trace].
        rewrite trace_ticks. reflexivity. }
  destruct G as (err & st & G & T).
  unfold outcome, events, calls.
  rewrite (scheduled_answers env data None st A G), G.
  split; [reflexivity|].
  destruct (toStringThrows data); cbn [fst snd record trace]; rewrite T.
  - split; [reflexivity|]. split; [reflexivity|]. exists err. reflexivity.
  - split; [reflexivity|]. split; [reflexivity|]. exists err. reflexivity.
Qed.

(** On Monday 2024-06-24 at 09:00 in Los Angeles, with hours for Tuesday
    only. *)
Lemma C1_witness :
  fst (getTimeout (sampleEnv (instant 2024 6 24 9 0 (-420))
                             [("tuesday", JStr "10am-2am")] (Some 7))
                  (storepointBody [("tuesday", JStr "10am-2am")]) fetched)
  = Ret None
  /\ calls (events (sampleEnv (instant 2024 6 24 9 0 (-420))
                              [("tuesday", JStr "10am-2am")] (Some 7))) = [].
Proof.
  pose proof (C1_parse_failure_skips
                (sampleEnv (instant 2024 6 24 9 0 (-420))
                           [("tuesday", JStr "10am-2am")] (Some 7))
                losAngeles
                (storepointBody [("tuesday", JStr "10am-2am")])
                [("tuesday", JStr "10am-2am")]) as W.
  destruct W as (T & C & _).
  - exists 200, [("success", JBool true);
                 ("results", JObj [("location", JObj [("tuesday", JStr "10am-2am")])])].
    repeat split; reflexivity.
  - reflexivity.
  - reflexivity.
  - left. reflexivity.
  - split; assumption.
Defined.

(** The same Monday, with hours that name no hour. *)
Example closed_today :
  let env := sampleEnv (instant 2024 6 24 9 0 (-420)) [("monday", JStr "Closed")] (Some 7) in
  outcome env = Ret tt
  /\ events env
     = [EFetch "https://api.storepoint.co/v1/16026f2c5ac3c7/location/39156327";
        ELog LogStorepointOk;
        ELog (LogAttempt (Some (JStr "Closed")));
        ELog (LogErr InvalidArgumentError);
        ELog LogClosed].
Proof. split; vm_compute; reflexivity. Qed.

(** C2.  Whenever the fetch of the hours fails (the request is rejected,
    the status is not a success, the body is not JSON, or the [success]
    flag is not set), [scheduled] takes [getFallbackTimeout] for the
    timeout.  That is always a number.  With the zone known it is, after two
    readings of the clock, the instant that [set] resolves for 10:00 of
    today's date, today being the first reading, minus the second reading;
    and that instant is the one at which the zone's wall clock shows 10:00
    of that date, whenever it does show it.  With the zone unknown it is,
    after three readings, the constant of three minutes.  The day is
    therefore not skipped: [scheduled] goes on to [announce], which reads
    the counter and, once the read has answered, waits for the fallback
    timeout and sends. *)
Theorem C2_fetch_failure_fallback (env : Env) :
  FetchFailure env ->
  exists err timeout,
    let st := record [EFetch (URL_PREFIX ++ Str.ofNumber PLAZA_BONITA_ID);
                      ELog (LogErr err)] initial in
    let st' := ticks (S (zoneReadings env)) st in
    getFallbackTimeout env st = (Ret timeout, st')
    /\ scheduled env initial = announce env timeout st'
    /\ (pacific env = None -> timeout = FALLBACK_TIMEOUT /\ reads st' = 3%nat)
    /\ (forall zone,
          pacific env = Some zone ->
          let reference :=
            fst (fixOffset (todayAt zone (clock env 0) FALLBACK_HOUR)
                           (zone (clock env 0)) zone) in
          timeout = reference - clock env 1
          /\ reads st' = 2%nat
          /\ (wallClockShows zone (zone (clock env 0))
                             (todayAt zone (clock env 0) FALLBACK_HOUR) ->
              localTS reference (zone reference)
              = todayAt zone (clock env 0) FALLBACK_HOUR))
    /\ (forall row,
          DB_first env = FirstValue row ->
          exists day rest,
            calls (events env)
            = (EDbFirst PLAZA_BONITA_ID :: ESetTimeout timeout
               :: EWebhookPost (WEBHOOK_ID env) (WEBHOOK_TOKEN env) (getMessage day)
               :: rest)).
Proof.
  intro F. destruct (scheduled_fetch_failure env F) as [err Sch].
  exists err. cbn zeta in Sch.
  set (st := record [EFetch (URL_PREFIX ++ Str.ofNumber PLAZA_BONITA_ID);
                     ELog (LogErr err)] initial) in *.
  destruct (getFallbackTimeout_total env st) as [timeout T].
  exists timeout. cbn zeta. rewrite T in Sch.
  split; [exact T|]. split; [exact Sch|]. split; [|split].
  - intro Z. rewrite (getFallbackTimeout_unknown env st Z) in T.
    unfold zoneReadings. rewrite Z. split; [congruence | reflexivity].
  - intros zone Z.
    rewrite (getFallbackTimeout_known env zone st Z) in T.
    change (reads st) with 0%nat in T.
    unfold zoneReadings. rewrite Z.
    split; [congruence|]. split; [reflexivity|]. intro W.
    rewrite (fixOffset_in_force _ _ _ W). apply (fixOffset_shows _ _ _ W).
  - intros row R. unfold events. rewrite Sch.
    destruct (announce_calls env timeout row (ticks (S (zoneReadings env)) st) R)
      as (rest & C & _).
    exists (dayNumber env row (ticks (S (zoneReadings env)) st)), rest.
    rewrite C, trace_ticks. reflexivity.
Qed.

(** The hours source answers 503 on Monday 2024-06-24 at 09:57 in Los
    Angeles: the fallback is three minutes, to 10:00, after two readings of
    the clock. *)
Lemma C2_witness :
  let env := hoursDown (instant 2024 6 24 9 57 (-420))
                       (FetchResponse 503 BodyInvalid) (Some 7) in
  exists err,
    let st := record [EFetch (URL_PREFIX ++ Str.ofNumber PLAZA_BONITA_ID);
                      ELog (LogErr err)] initial in
    getFallbackTimeout env st = (Ret 180000, tick (tick st))
    /\ scheduled env initial = announce env 180000 (tick (tick st)).
Proof.
  destruct (C2_fetch_failure_fallback
              (hoursDown (instant 2024 6 24 9 57 (-420))
                         (FetchResponse 503 BodyInvalid) (Some 7)))
    as (err & timeout & T & S & _ & K & _).
  - apply (BadStatus _ 503 BodyInvalid); reflexivity.
  - destruct (K losAngeles eq_refl) as (E & _).
    assert (E' : timeout = 180000) by (rewrite E; vm_compute; reflexivity).
    exists err. rewrite <- E'. split; [exact T | exact S].
Defined.

Example fallback_at_0957 :
  let env := hoursDown (instant 2024 6 24 9 57 (-420))
                       (FetchResponse 503 BodyInvalid) (Some 7) in
  outcome env = Ret tt
  /\ calls (events env)
     = [EDbFirst 39156327; ESetTimeout 180000;
        EWebhookPost "id" "token" "Round1 Plaza Bonita Day 7: START";
        EDbRun 8 39156327].
Proof. split; vm_compute; reflexivity. Qed.

(** The zone unknown to the runtime, the clock advancing by a second at
    each reading: three readings are made, and the counter's absence is made
    up from the fourth. *)
Example fallback_without_zone :
  let env := zonelessEnv (instant 2024 6 24 9 57 (-420)) None in
  getFallbackTimeout env initial = (Ret FALLBACK_TIMEOUT, mkState 3 [])
  /\ outcome env = Ret tt
  /\ calls (events env)
     = [EDbFirst 39156327; ESetTimeout 180000;
        EWebhookPost "id" "token" "Round1 Plaza Bonita Day 3: START";
        EDbRun 4 39156327]
  /\ dayNumber env None (mkState 3 []) = 3.
Proof. repeat split; vm_compute; reflexivity. Qed.

(** Each kind of failure, an hour before the reference hour and with no
    counter row: the fallback is the hour to 10:00, and the day is the third
    since the opening. *)
Example fallback_by_failure :
  map (fun result => calls (events (hoursDown (instant 2024 6 24 9 0 (-420)) result None)))
      [FetchFails;
       FetchResponse 404 (BodyJson (storepointBody []));
       FetchResponse 200 BodyInvalid;
       FetchResponse 200 (BodyJson (JObj [("success", JBool false)]));
       FetchResponse 200 (BodyJson JNull)]
  = repeat [EDbFirst 39156327; ESetTimeout 3600000;
            EWebhookPost "id" "token" "Round1 Plaza Bonita Day 3: START";
            EDbRun 4 39156327] 5.
Proof. vm_compute. reflexivity. Qed.



Example fallback_timeout_samples :
  fst (getFallbackTimeout (sampleEnv (instant 2024 6 24 9 0 (-420)) [] None) initial)
  = Ret 3600000
  /\ fst (getFallbackTimeout (sampleEnv (instant 2024 12 2 9 30 (-480)) [] None) initial)
     = Ret 1800000
  /\ fst (getFallbackTimeout (sampleEnv (instant 2024 6 24 12 0 (-420)) [] None) initial)
     = Ret (-7200000)
  /\ fst (getFallbackTimeout
            (mkEnv (fun _ => 0) None FetchFails FirstFails "" "" PostFails RunFails)
            initial)
     = Ret FALLBACK_TIMEOUT.
Proof. repeat split; vm_compute; reflexivity. Qed.

(* ================================================================== *)
(** * Failures of the notifier and of the database *)
(* ================================================================== *)

(** C3, as amended.  An answer of the notifier, whatever its status, is
    logged and otherwise ignored: the invocation goes on to request the
    increment of the counter.  A rejected request to the notifier (the
    notifier cannot be reached) and a rejected read or write of the counter
    are not caught: each ends the invocation with that error.  After a
    rejected read nothing is sent, and after a rejected request to the
    notifier no increment is requested. *)
Theorem C3_collaborator_failures (env : Env) (timeout : Z) (st : State) :
  let r := announce env timeout st in
  match DB_first env with
  | FirstFails =>
      fst r = Throw D1Rejected
      /\ calls (trace (snd r)) = (calls (trace st) ++ [EDbFirst PLAZA_BONITA_ID])%list
  | FirstValue row =>
      let day := dayNumber env row st in
      let sent := [EDbFirst PLAZA_BONITA_ID; ESetTimeout timeout;
                   EWebhookPost (WEBHOOK_ID env) (WEBHOOK_TOKEN env) (getMessage day)] in
      match discord env with
      | PostFails =>
          fst r = Throw FetchRejected
          /\ calls (trace (snd r)) = (calls (trace st) ++ sent)%list
      | PostResponse status =>
          fst r = match DB_run env with
                  | RunFails => Throw D1Rejected
                  | RunDone => Ret tt
                  end
          /\ In (ELog (LogResponse status)) (trace (snd r))
          /\ calls (trace (snd r))
             = (calls (trace st) ++ sent ++ [EDbRun (day + 1) PLAZA_BONITA_ID])%list
      end
  end.
Proof.
  cbn zeta. rewrite announce_run.
  destruct (DB_first env) as [|row].
  - cbn [fst snd]. rewrite calls_record. split; reflexivity.
  - cbn zeta.
    assert (T : calls (trace (afterDayNumber row st)) = calls (trace st))
      by now destruct row.
    destruct (discord env) as [|status].
    + cbn [fst snd]. rewrite calls_record, T. split; reflexivity.
    + destruct (DB_run env); cbn [fst snd]; rewrite calls_record, T;
        (split; [reflexivity|]); (split; [|reflexivity]);
        unfold record; cbn [trace]; apply in_or_app; right; cbn;
        repeat (first [left; reflexivity | right]).
Qed.

(** C3, as the specification words it, fails: with the notifier out of
    reach on Monday 2024-06-24 at 09:00, the invocation ends with the
    rejection of the request, and requests no increment of the counter. *)
Lemma C3_counterexample :
  let env := notifierDown (instant 2024 6 24 9 0 (-420))
                          [("monday", JStr "10am-2am")] (Some 7) in
  outcome env = Throw FetchRejected
  /\ calls (events env)
     = [EDbFirst 39156327; ESetTimeout 3600000;
        EWebhookPost "id" "token" "Round1 Plaza Bonita Day 7: START"]
  /\ ~ In (EDbRun 8 39156327) (events env).
Proof.
  repeat split; try (vm_compute; reflexivity).
  vm_compute. intuition discriminate.
Qed.

(** A rejected read of the counter ends the invocation before anything is
    sent. *)
Example counter_read_rejected :
  let env := counterDown (instant 2024 6 24 9 0 (-420)) [("monday", JStr "10am-2am")] in
  outcome env = Throw D1Rejected /\ calls (events env) = [EDbFirst 39156327].
Proof. split; vm_compute; reflexivity. Qed.

(* ================================================================== *)
(** * The opening time *)
(* ================================================================== *)

(** C5.  Each of the three formats in use, [10AM - 2AM], [10am-2am] and
    [10am to 2am], gives the same opening time: today's date in the zone,
    today being read from the clock after the token is parsed, at 10:00:00.000,
    provided the zone's wall clock shows 10:00 that day, as that of Los
    Angeles does every day. *)
Theorem C5_known_formats (env : Env) (zone : Zone) (hours : string) (st : State) :
  In hours ["10AM - 2AM"; "10am-2am"; "10am to 2am"] ->
  pacific env = Some zone ->
  let t := clock env (S (reads st)) in
  let fixed := fixOffset (todayAt zone t 10) (zone t) zone in
  let openingTime := Valid (fst fixed) zone (snd fixed) in
  wallClockShows zone (zone t) (todayAt zone t 10) ->
  getOpeningTime env (Some (JStr hours)) st = (Ret openingTime, afterAttempt hours 2 st)
  /\ hour openingTime = Some 10
  /\ minute openingTime = Some 0
  /\ second openingTime = Some 0
  /\ millisecond openingTime = Some 0
  /\ localDay openingTime = localDay (Valid t zone (zone t)).
Proof.
  intros I Z t fixed openingTime W.
  assert (P : exists token,
             opening hours = Some token /\ firstHour token = Some 10
             /\ parseReadings token = 1%nat).
  { cbn [In] in I.
    destruct I as [<-|[<-|[<-|[]]]]; eexists; (split; [|split]); reflexivity. }
  destruct P as (token & O & P & N).
  split.
  - rewrite (getOpeningTime_parsed env zone hours token 10 st Z O P).
    cbn zeta. rewrite N. cbn [Nat.pred Nat.add].
    destruct (fields_on_the_hour utc
                (clock env (reads st) / MS_PER_DAY * MS_PER_DAY + 10 * MS_PER_HOUR)
                0 (clock env (reads st) / MS_PER_DAY) 10)
      as (_ & -> & -> & -> & ->); [lia | unfold localTS; lia |].
    unfold set. fold t.
    replace (localTS t (zone t) / MS_PER_DAY * MS_PER_DAY
             + 10 * MS_PER_HOUR + 0 * MS_PER_MINUTE + 0 * 1000 + 0)
      with (todayAt zone t 10) by (unfold todayAt; ring).
    fold fixed. unfold openingTime. now destruct fixed.
  - destruct (fields_on_the_hour zone (fst fixed) (snd fixed)
                (localTS t (zone t) / MS_PER_DAY) 10)
      as (D & Hh & Hm & Hs & Hms); [lia | exact (fixOffset_shows _ _ _ W) |].
    cbn zeta in *. fold openingTime in D, Hh, Hm, Hs, Hms.
    repeat split; assumption.
Qed.

Lemma C5_witness :
  let env := sampleEnv (instant 2024 6 24 9 0 (-420)) [] None in
  let t := clock env (S (reads initial)) in
  let fixed := fixOffset (todayAt losAngeles t 10) (losAngeles t) losAngeles in
  let openingTime := Valid (fst fixed) losAngeles (snd fixed) in
  getOpeningTime env (Some (JStr "10am to 2am")) initial
  = (Ret openingTime, afterAttempt "10am to 2am" 2 initial)
  /\ hour openingTime = Some 10
  /\ minute openingTime = Some 0
  /\ second openingTime = Some 0
  /\ millisecond openingTime = Some 0
  /\ localDay openingTime = localDay (Valid t losAngeles (losAngeles t)).
Proof.
  apply (C5_known_formats (sampleEnv (instant 2024 6 24 9 0 (-420)) [] None)
           losAngeles "10am to 2am" initial).
  - cbn. auto.
  - reflexivity.
  - left. reflexivity.
Defined.

(** The three formats, and a fourth with spaces inside the tokens, on Monday
    2024-06-24 at 09:00 in Los Angeles: 10:00 that day. *)
Example known_formats_agree :
  map (fun hours =>
         resolved (fst (getOpeningTime (sampleEnv (instant 2024 6 24 9 0 (-420)) [] None)
                                       (Some (JStr hours)) initial)))
      ["10AM - 2AM"; "10am-2am"; "10am to 2am"; "10 AM - 2 AM"]
  = repeat (Some (instant 2024 6 24 10 0 (-420))) 4.
Proof. vm_compute. reflexivity. Qed.

(** The readings of the clock that [getOpeningTime] makes: one for the
    parse and one for today's date when the first format reads the token,
    one more when the second format is tried, and one more again when the
    first format matched with an hour out of range.  With the clock advancing
    by a second at each reading, hours that the second format reads are
    resolved from the third reading, and the fifth is subtracted. *)
Example clock_readings :
  let env := tickingEnv (instant 2024 6 24 9 0 (-420))
                        [("monday", JStr "10 AM - 2 AM")] (Some 7) in
  map (fun hours => reads (snd (getOpeningTime env (Some (JStr hours)) initial)))
      ["10am-2am"; "10 AM - 2 AM"; "Closed"; "25am-2am"]
  = [2; 3; 3; 4]%nat
  /\ map (fun hours => fst (getOpeningTime env (Some (JStr hours)) initial))
         ["Closed"; "25am-2am"]
     = [Throw InvalidArgumentError; Throw InvalidArgumentError]
  /\ resolved (fst (getOpeningTime env (Some (JStr "10 AM - 2 AM")) initial))
     = Some (instant 2024 6 24 10 0 (-420))
  /\ getTimeout env (storepointBody [("monday", JStr "10 AM - 2 AM")]) (mkState 0 [])
     = (Ret (Some 3596000),
        mkState 5 [ELog (LogAttempt (Some (JStr "10 AM - 2 AM")))]).
Proof. repeat split; vm_compute; reflexivity. Qed.

(* ================================================================== *)
(** * The day number *)
(* ================================================================== *)

(** C6, as amended.  With no counter row, the day number is the number of
    days elapsed since the opening instant, 2024-06-22 at 10:00 seven hours
    behind UTC, rounded up, plus one: [k + 1] for every instant later than
    [k - 1] days and at most [k] days after the opening.  So exactly five
    days after the opening it is 6, and at the opening instant it is 1, as it
    is earlier on the opening day; later on the opening day it is 2. *)
Theorem C6_fallback_day_number (env : Env) (st : State) (k : Z) :
  let t := clock env (reads st) in
  inWindow k t ->
  getFallbackDaysOpen env st
  = (Ret (Qceiling (inject_Z (t - openingInstant) / inject_Z MS_PER_DAY) + 1), tick st)
  /\ Qceiling (inject_Z (t - openingInstant) / inject_Z MS_PER_DAY) = k
  /\ dayNumber env None st = k + 1.
Proof.
  intros t W. rewrite getFallbackDaysOpen_run. fold t.
  pose proof (fallbackDays_window k t W) as D.
  pose proof (fallbackDays_ceiling t) as C.
  split; [now rewrite C|]. split; [lia|exact D].
Qed.

(** Exactly five days after the opening: day 6. *)
Lemma C6_witness :
  fst (getFallbackDaysOpen (sampleEnv (instant 2024 6 27 10 0 (-420)) [] None) initial)
  = Ret 6
  /\ dayNumber (sampleEnv (instant 2024 6 27 10 0 (-420)) [] None) None initial = 6.
Proof.
  destruct (C6_fallback_day_number
              (sampleEnv (instant 2024 6 27 10 0 (-420)) [] None) initial 5)
    as (G & C & D).
  - vm_compute. split; [reflexivity | discriminate].
  - split; [|exact D].
    rewrite G. cbn [fst]. cbn zeta in C. rewrite C. reflexivity.
Defined.

(** C6, as the specification words it, fails on the opening day: at noon
    of 2024-06-22 in Los Angeles, two hours after the opening instant and on
    the same day of the calendar, the day number is 2. *)
Lemma C6_counterexample :
  let t := instant 2024 6 22 12 0 (-420) in
  pacificDay t = pacificDay openingInstant
  /\ pacificDay t = daysFromCivil 2024 6 22
  /\ fst (getFallbackDaysOpen (sampleEnv t [] None) initial) = Ret 2
  /\ fst (getFallbackDaysOpen (sampleEnv t [] None) initial) <> Ret 1.
Proof. repeat split; try (vm_compute; reflexivity). vm_compute. discriminate. Qed.

Example day_numbers :
  map fallbackDays
      [openingInstant;
       instant 2024 6 22 9 57 (-420);
       instant 2024 6 22 0 0 (-420);
       instant 2024 6 22 10 1 (-420);
       instant 2024 6 23 9 57 (-420);
       instant 2024 6 27 10 0 (-420);
       instant 2024 12 2 8 57 (-480)]
  = [1; 1; 1; 2; 2; 6; 164].
Proof. vm_compute. reflexivity. Qed.

(** A moment before 10:00 and a later one after it, both of one day of the
    wall clock seven hours behind UTC, lie in consecutive windows. *)
Lemma either_side_of_ten (k t t' : Z) :
  inWindow k t ->
  epochDay t = epochDay t' ->
  t <= tenOn (epochDay t) < t' ->
  inWindow (k + 1) t'.
Proof.
  unfold inWindow, tenOn, epochDay, localTS. change openingInstant with 1719075600000.
  unfold MS_PER_DAY, MS_PER_HOUR, MS_PER_MINUTE. intros W E B.
  pose proof (Z.mul_div_le (t' + -420 * 60000) 86400000 ltac:(lia)).
  pose proof (Z.mul_succ_div_gt (t' + -420 * 60000) 86400000 ltac:(lia)).
  pose proof (Z.mul_div_le (t + -420 * 60000) 86400000 ltac:(lia)).
  pose proof (Z.mul_succ_div_gt (t + -420 * 60000) 86400000 ltac:(lia)).
  rewrite E in *.
  set (d := (t' + -420 * 60000) / 86400000) in *.
  clearbody d. lia.
Qed.

(** C7, as amended.  The fallback computation is a function of the instant
    at which it runs, and changes nothing but the clock's count of readings.
    A run in the [k]-th window of 24 hours ending at the opening's time of
    the day, 10:00 seven hours behind UTC, gives [k + 1]; so two runs at the
    same instant, or at two instants of the same window, give the same
    integer, whatever the surroundings, and a run in the next window gives
    one more.  Two runs on one calendar day of the opening's wall clock, the
    first at or before 10:00 and the second after it, are in consecutive
    windows: their integers differ by one. *)
Theorem C7_same_window_same_day (env env' : Env) (st st' : State) (k : Z) :
  let t := clock env (reads st) in
  let t' := clock env' (reads st') in
  inWindow k t ->
  getFallbackDaysOpen env st = (Ret (k + 1), tick st)
  /\ (t' = t \/ inWindow k t' ->
      getFallbackDaysOpen env' st' = (Ret (k + 1), tick st'))
  /\ (inWindow (k + 1) t' ->
      getFallbackDaysOpen env' st' = (Ret (k + 1 + 1), tick st'))
  /\ (epochDay t = epochDay t' ->
      t <= tenOn (epochDay t) < t' ->
      getFallbackDaysOpen env' st' = (Ret (k + 1 + 1), tick st')).
Proof.
  intros t t' W. rewrite !getFallbackDaysOpen_run. fold t t'.
  rewrite (fallbackDays_window k t W).
  split; [reflexivity|]. split; [|split].
  - intros [E|W']; [rewrite E|]; now rewrite (fallbackDays_window k _ ltac:(eassumption)).
  - intro W'. now rewrite (fallbackDays_window (k + 1) t' W').
  - intros E B.
    now rewrite (fallbackDays_window (k + 1) t' (either_side_of_ten k t t' W E B)).
Qed.

(** On 2024-06-23 in Los Angeles, the day after the opening: at 09:00 and at
    09:59 the computation gives 2, and at 11:00 of the same day 3. *)
Lemma C7_witness :
  let early := sampleEnv (instant 2024 6 23 9 0 (-420)) [] None in
  let sooner := sampleEnv (instant 2024 6 23 9 59 (-420)) [] (Some 1) in
  let late := sampleEnv (instant 2024 6 23 11 0 (-420)) [] None in
  getFallbackDaysOpen early initial = (Ret 2, tick initial)
  /\ getFallbackDaysOpen sooner fetched = (Ret 2, tick fetched)
  /\ getFallbackDaysOpen late fetched = (Ret 3, tick fetched)
  /\ epochDay (instant 2024 6 23 9 0 (-420)) = epochDay (instant 2024 6 23 11 0 (-420)).
Proof.
  cbv zeta.
  destruct (C7_same_window_same_day
              (sampleEnv (instant 2024 6 23 9 0 (-420)) [] None)
              (sampleEnv (instant 2024 6 23 9 59 (-420)) [] (Some 1))
              initial fetched 1) as (A & B & _).
  { vm_compute. split; [reflexivity | discriminate]. }
  destruct (C7_same_window_same_day
              (sampleEnv (instant 2024 6 23 9 0 (-420)) [] None)
              (sampleEnv (instant 2024 6 23 11 0 (-420)) [] None)
              initial fetched 1) as (_ & _ & _ & C).
  { vm_compute. split; [reflexivity | discriminate]. }
  split; [exact A|]. split; [|split].
  - apply B. right. vm_compute. split; [reflexivity | discriminate].
  - apply C.
    + vm_compute. reflexivity.
    + vm_compute. split; [discriminate | reflexivity].
  - vm_compute. reflexivity.
Defined.

(** C7, as the specification words it, fails: at 09:00 and at 11:00 of the
    same day, 2024-06-23 in Los Angeles, the computation gives 2 and 3. *)
Lemma C7_counterexample :
  let t := instant 2024 6 23 9 0 (-420) in
  let t' := instant 2024 6 23 11 0 (-420) in
  pacificDay t = pacificDay t'
  /\ fst (getFallbackDaysOpen (sampleEnv t [] None) initial) = Ret 2
  /\ fst (getFallbackDaysOpen (sampleEnv t' [] None) initial) = Ret 3
  /\ fst (getFallbackDaysOpen (sampleEnv t [] None) initial)
     <> fst (getFallbackDaysOpen (sampleEnv t' [] None) initial).
Proof. repeat split; try (vm_compute; reflexivity). vm_compute. discriminate. Qed.

(* ================================================================== *)
(** * From the hours to the notification *)
(* ================================================================== *)

(** The hours source answered with hours for today that have an hour: the
    weekday is read at the first reading of the clock, the token is parsed
    at the next readings, today's date is read at the reading after them,
    and the timeout is the resolved opening instant minus the reading after
    that; [scheduled] goes on to [announce]. *)
Lemma scheduled_resolved (env : Env) (zone : Zone) (data : Json)
      (location : list (string * Json)) (text token : string) (h : Z) :
  answers env data ->
  pacific env = Some zone ->
  hoursMap data = Some location ->
  lookup (dayName zone (clock env 0)) location = Some (JStr text) ->
  opening text = Some token ->
  firstHour token = Some h ->
  let p := parseReadings token in
  let resolvedInstant := openingAt zone (clock env (S p)) h in
  let timeout := resolvedInstant - clock env (S (S p)) in
  let st := afterAttempt text (S p) (tick fetched) in
  exists o,
    getOpeningTime env (Some (JStr text)) (tick fetched)
    = (Ret (Valid resolvedInstant zone o), st)
    /\ reads st = S (S p)
    /\ getTimeout env data fetched = (Ret (Some timeout), tick st)
    /\ scheduled env initial = announce env timeout (tick st).
Proof.
  intros A Z H L O F p resolvedInstant timeout st.
  pose proof (getOpeningTime_resolved env zone text token h (tick fetched) Z O F) as G.
  cbn zeta in G. change (reads (tick fetched)) with 1%nat in G.
  rewrite Nat.add_1_r in G. fold p in G.
  assert (R : reads st = S (S p))
    by (unfold st; rewrite reads_afterAttempt; cbn [reads tick fetched record initial]; lia).
  eexists. split; [exact G|]. split; [exact R|].
  assert (T : getTimeout env data fetched = (Ret (Some timeout), tick st)).
  { rewrite (getTimeout_resolved env zone data location text _ _ fetched _ Z H L G).
    fold st. rewrite R. reflexivity. }
  split; [exact T|]. exact (scheduled_answers env data _ _ A T).
Qed.

Lemma calls_after_attempt (text : string) (n : nat) :
  calls (trace (tick (afterAttempt text n (tick fetched)))) = [].
Proof. rewrite calls_tick, trace_afterAttempt. reflexivity. Qed.

(** C8.  When the hours map holds, for today's weekday, hours whose opening
    token reads as the hour [h], the counter row holds [n], a number that
    the code holds exactly, and the notifier answers, the invocation reads
    the counter, waits, sends the message [Round1 Plaza Bonita Day n: START]
    and requests the write of [n + 1] for the venue, in that order and with
    no other call.  The delay that it waits for is the instant of [h]
    o'clock on today's date in the zone minus the reading of the clock that
    follows: with hours [10am-2am] at 09:00 of a Monday and the counter at 7
    it is 60 minutes, the message is that of day 7, and the write is 8. *)
Theorem C8_send_and_increment (env : Env) (zone : Zone) (data : Json)
    (location : list (string * Json)) (text token : string) (h n status : Z) :
  answers env data ->
  pacific env = Some zone ->
  hoursMap data = Some location ->
  lookup (dayName zone (clock env 0)) location = Some (JStr text) ->
  opening text = Some token ->
  firstHour token = Some h ->
  DB_first env = FirstValue (Some n) ->
  safeInteger n ->
  discord env = PostResponse status ->
  let p := parseReadings token in
  let timeout := openingAt zone (clock env (S p)) h - clock env (S (S p)) in
  fst (getTimeout env data fetched) = Ret (Some timeout)
  /\ calls (events env)
     = [EDbFirst PLAZA_BONITA_ID;
        ESetTimeout timeout;
        EWebhookPost (WEBHOOK_ID env) (WEBHOOK_TOKEN env)
                     ("Round1 Plaza Bonita Day " ++ Str.ofNumber n ++ ": START");
        EDbRun (n + 1) PLAZA_BONITA_ID].
Proof.
  intros A Z H L O F R _ D p timeout.
  destruct (scheduled_resolved env zone data location text token h A Z H L O F)
    as (o & _ & _ & T & Sch).
  cbn zeta in T, Sch. fold p in T, Sch. fold timeout in T, Sch.
  split; [now rewrite T|].
  unfold events. rewrite Sch.
  destruct (announce_calls env timeout (Some n)
              (tick (afterAttempt text (S p) (tick fetched))) R) as (rest & C & E).
  rewrite C, (E status D), calls_after_attempt. reflexivity.
Qed.

(** Monday 2024-06-24 at 09:00 in Los Angeles, hours [10am-2am] for Monday,
    the counter at 7: a delay of 60 minutes, the message of day 7, the write
    of 8. *)
Lemma C8_witness :
  let env := sampleEnv (instant 2024 6 24 9 0 (-420))
                       [("monday", JStr "10am-2am")] (Some 7) in
  fst (getTimeout env (storepointBody [("monday", JStr "10am-2am")]) fetched)
  = Ret (Some (60 * MS_PER_MINUTE))
  /\ calls (events env)
     = [EDbFirst 39156327;
        ESetTimeout (60 * MS_PER_MINUTE);
        EWebhookPost "id" "token" "Round1 Plaza Bonita Day 7: START";
        EDbRun 8 39156327].
Proof.
  cbv zeta.
  destruct (C8_send_and_increment
              (sampleEnv (instant 2024 6 24 9 0 (-420))
                         [("monday", JStr "10am-2am")] (Some 7))
              losAngeles
              (storepointBody [("monday", JStr "10am-2am")])
              [("monday", JStr "10am-2am")] "10am-2am" "10am" 10 7 204)
    as (T & C).
  - exists 200, [("success", JBool true);
                 ("results", JObj [("location", JObj [("monday", JStr "10am-2am")])])].
    repeat split; reflexivity.
  - reflexivity.
  - reflexivity.
  - vm_compute. reflexivity.
  - reflexivity.
  - reflexivity.
  - reflexivity.
  - unfold safeInteger. lia.
  - reflexivity.
  - split.
    + rewrite T. vm_compute. reflexivity.
    + rewrite C. vm_compute. reflexivity.
Defined.

(** The run of that Monday in full: a delay of 60 minutes, the message of
    day 7, the write of 8. *)
Example end_to_end :
  let env := sampleEnv (instant 2024 6 24 9 0 (-420))
                       [("monday", JStr "10am-2am")] (Some 7) in
  outcome env = Ret tt
  /\ events env
     = [EFetch "https://api.storepoint.co/v1/16026f2c5ac3c7/location/39156327";
        ELog LogStorepointOk;
        ELog (LogAttempt (Some (JStr "10am-2am")));
        EDbFirst 39156327;
        ELog (LogSending "Round1 Plaza Bonita Day 7: START" 3600000);
        ESetTimeout 3600000;
        EWebhookPost "id" "token" "Round1 Plaza Bonita Day 7: START";
        ELog (LogResponse 204);
        ELog (LogUpdating 8);
        EDbRun 8 39156327;
        ELog LogUpdateInfo]
  /\ 3600000 = 60 * MS_PER_MINUTE.
Proof. repeat split; vm_compute; reflexivity. Qed.

(** C9.  When the opening time is resolved, [getTimeout] returns its
    instant minus the reading of the clock that [diffNow] takes, the one
    after the readings of the weekday, of the parse and of today's date, as
    it is, positive or negative; and whatever its sign [scheduled] does not
    skip: once the counter is read it waits for that timeout, which a timer
    takes for no wait at all when it is negative, and sends. *)
Theorem C9_timeout_is_opening_minus_now (env : Env) (zone : Zone) (data : Json)
    (location : list (string * Json)) (text token : string) (h : Z)
    (row : option Z) :
  answers env data ->
  pacific env = Some zone ->
  hoursMap data = Some location ->
  lookup (dayName zone (clock env 0)) location = Some (JStr text) ->
  opening text = Some token ->
  firstHour token = Some h ->
  DB_first env = FirstValue row ->
  let p := parseReadings token in
  let resolvedInstant := openingAt zone (clock env (S p)) h in
  exists o st,
    getOpeningTime env (Some (JStr text)) (tick fetched)
    = (Ret (Valid resolvedInstant zone o), st)
    /\ reads st = S (S p)
    /\ diffNow env (Valid resolvedInstant zone o) Milliseconds st
       = (Ret (InMilliseconds (resolvedInstant - clock env (reads st))), tick st)
    /\ fst (getTimeout env data fetched)
       = Ret (Some (resolvedInstant - clock env (reads st)))
    /\ exists day rest,
         calls (events env)
         = (EDbFirst PLAZA_BONITA_ID
            :: ESetTimeout (resolvedInstant - clock env (reads st))
            :: EWebhookPost (WEBHOOK_ID env) (WEBHOOK_TOKEN env) (getMessage day)
            :: rest).
Proof.
  intros A Z H L O F R p resolvedInstant.
  destruct (scheduled_resolved env zone data location text token h A Z H L O F)
    as (o & G & N & T & Sch).
  cbn zeta in G, N, T, Sch. fold p in G, N, T, Sch. fold resolvedInstant in G, T, Sch.
  exists o, (afterAttempt text (S p) (tick fetched)).
  split; [exact G|]. split; [exact N|]. split; [reflexivity|].
  rewrite N. split; [now rewrite T|].
  unfold events. rewrite Sch.
  destruct (announce_calls env (resolvedInstant - clock env (S (S p))) row
              (tick (afterAttempt text (S p) (tick fetched))) R) as (rest & C & _).
  eexists _, rest. rewrite C, calls_after_attempt. reflexivity.
Qed.

(** Monday 2024-06-24 in Los Angeles, hours [10 AM - 2 AM], which the
    second format reads, the clock advancing by a second at each reading
    from 09:00 on: the fifth reading is subtracted, and the timeout is four
    seconds short of the hour. *)
Lemma C9_witness :
  let env := tickingEnv (instant 2024 6 24 9 0 (-420))
                        [("monday", JStr "10 AM - 2 AM")] (Some 7) in
  fst (getTimeout env (storepointBody [("monday", JStr "10 AM - 2 AM")]) fetched)
  = Ret (Some 3596000)
  /\ exists day rest,
       calls (events env)
       = (EDbFirst PLAZA_BONITA_ID :: ESetTimeout 3596000
          :: EWebhookPost "id" "token" (getMessage day) :: rest).
Proof.
  cbv zeta.
  destruct (C9_timeout_is_opening_minus_now
              (tickingEnv (instant 2024 6 24 9 0 (-420))
                          [("monday", JStr "10 AM - 2 AM")] (Some 7))
              losAngeles
              (storepointBody [("monday", JStr "10 AM - 2 AM")])
              [("monday", JStr "10 AM - 2 AM")] "10 AM - 2 AM" "10 AM" 10 (Some 7))
    as (o & st & _ & N & _ & T & C).
  - exists 200, [("success", JBool true);
                 ("results",
                  JObj [("location", JObj [("monday", JStr "10 AM - 2 AM")])])].
    repeat split; reflexivity.
  - reflexivity.
  - reflexivity.
  - vm_compute. reflexivity.
  - reflexivity.
  - reflexivity.
  - reflexivity.
  - rewrite N in T, C.
    assert (E : openingAt losAngeles
                  (clock (tickingEnv (instant 2024 6 24 9 0 (-420))
                                     [("monday", JStr "10 AM - 2 AM")] (Some 7))
                         (S (parseReadings "10 AM"))) 10
                - clock (tickingEnv (instant 2024 6 24 9 0 (-420))
                                    [("monday", JStr "10 AM - 2 AM")] (Some 7))
                        (S (S (parseReadings "10 AM")))
                = 3596000) by (vm_compute; reflexivity).
    rewrite E in T, C. split; [exact T | exact C].
Defined.

(** An opening 90 minutes ahead gives a positive timeout, one 10 minutes
    past a negative one, and the negative one is waited for and followed by
    the send and the write all the same. *)
Example timeout_signs :
  let hours := [("monday", JStr "10am-2am")] in
  fst (getTimeout (sampleEnv (instant 2024 6 24 8 30 (-420)) hours (Some 7))
                  (storepointBody hours) fetched)
  = Ret (Some (90 * MS_PER_MINUTE))
  /\ fst (getTimeout (sampleEnv (instant 2024 6 24 10 10 (-420)) hours (Some 7))
                     (storepointBody hours) fetched)
     = Ret (Some (- (10 * MS_PER_MINUTE)))
  /\ outcome (sampleEnv (instant 2024 6 24 10 10 (-420)) hours (Some 7)) = Ret tt
  /\ calls (events (sampleEnv (instant 2024 6 24 10 10 (-420)) hours (Some 7)))
     = [EDbFirst 39156327; ESetTimeout (-600000);
        EWebhookPost "id" "token" "Round1 Plaza Bonita Day 7: START";
        EDbRun 8 39156327].
Proof. repeat split; vm_compute; reflexivity. Qed.

(* ================================================================== *)
(** * What the parts never do *)
(* ================================================================== *)

Section Silence.

Variable p : Event -> bool.
Hypothesis logs : forall line, p (ELog line) = false.

Lemma silent_ret {A} (a : A) : Silent p (ret a).
Proof. intro st. reflexivity. Qed.

Lemma silent_throw {A} (e : Exn) : Silent p (@throw A e).
Proof. intro st. reflexivity. Qed.

Lemma silent_bind {A B} (m : M A) (f : A -> M B) :
  Silent p m -> (forall a, Silent p (f a)) -> Silent p (bind m f).
Proof.
  intros Hm Hf st. unfold bind. specialize (Hm st).
  destruct (m st) as [[a|e] st']; cbn [snd] in *.
  - now rewrite (Hf a st').
  - exact Hm.
Qed.

Lemma silent_tryCatch {A} (m : M A) (handler : Exn -> M A) :
  Silent p m -> (forall e, Silent p (handler e)) -> Silent p (tryCatch m handler).
Proof.
  intros Hm Hh st. unfold tryCatch. specialize (Hm st).
  destruct (m st) as [[a|e] st']; cbn [snd] in *.
  - exact Hm.
  - now rewrite (Hh e st').
Qed.

Lemma silent_emit (e : Event) : p e = false -> Silent p (emit e).
Proof.
  intros H st. unfold emit, record. cbn [snd trace].
  rewrite filter_app. cbn [filter]. rewrite H. apply app_nil_r.
Qed.

Lemma silent_log (line : LogLine) : Silent p (log line).
Proof. apply silent_emit, logs. Qed.

Lemma silent_readClock (env : Env) : Silent p (readClock env).
Proof. intro st. reflexivity. Qed.

Lemma silent_when (c : bool) (m : M unit) : Silent p m -> Silent p (when c m).
Proof. intro H. destruct c; [exact H | apply silent_ret]. Qed.

Lemma silent_getProp (base : JsVal) (key : string) : Silent p (getProp base key).
Proof.
  destruct base as [[| | | | |members]|]; cbn [getProp];
    (apply silent_ret || apply silent_throw).
Qed.

Lemma silent_getTodayPT (env : Env) : Silent p (getTodayPT env).
Proof. intro st. rewrite getTodayPT_run. cbn [snd]. now rewrite trace_ticks. Qed.

Lemma silent_set (dt : DateTime) (h mi s ms : option Z) : Silent p (set dt h mi s ms).
Proof.
  intro st. unfold set.
  destruct dt as [|ts zone o]; [reflexivity|].
  destruct h, mi, s, ms; try reflexivity.
  now destruct (fixOffset _ o zone).
Qed.

Lemma silent_fromFormat (env : Env) (text : string) (fmt : Format) :
  Silent p (fromFormat env text fmt).
Proof. intro st. rewrite fromFormat_run. cbn [snd]. now rewrite trace_ticks. Qed.

Lemma silent_diffNow (env : Env) (dt : DateTime) (unit : Unit) :
  Silent p (diffNow env dt unit).
Proof. intro st. unfold diffNow. destruct dt, unit; reflexivity. Qed.

Lemma silent_getCurrentDayOfWeekPT (env : Env) : Silent p (getCurrentDayOfWeekPT env).
Proof.
  apply silent_bind; [apply silent_getTodayPT|]. intro today.
  destruct (weekdayLong today); [apply silent_ret | apply silent_throw].
Qed.

Lemma silent_getOpeningTime (env : Env) (hours : JsVal) :
  Silent p (getOpeningTime env hours).
Proof.
  unfold getOpeningTime.
  destruct hours as [[| b | q | text | items | members]|];
    try (apply silent_bind;
         [first [apply silent_when; apply silent_log | apply silent_log]
         | intros _; apply silent_throw]).
  apply silent_bind; [apply silent_log|]. intros _.
  destruct (opening text) as [token|]; [|apply silent_throw].
  apply silent_bind; [apply silent_fromFormat|]. intro openingTime.
  apply silent_bind.
  - destruct (negb (isValid openingTime)); [apply silent_fromFormat | apply silent_ret].
  - intro openingTime'. apply silent_bind; [apply silent_getTodayPT|].
    intro today. apply silent_set.
Qed.

Lemma silent_getTimeout (env : Env) (data : Json) : Silent p (getTimeout env data).
Proof.
  apply silent_tryCatch.
  - apply silent_bind; [apply silent_getProp|]. intro results.
    apply silent_bind; [apply silent_getProp|]. intro location.
    apply silent_bind; [apply silent_getCurrentDayOfWeekPT|]. intro day.
    apply silent_bind; [apply silent_getProp|]. intro hours.
    apply silent_bind; [apply silent_getOpeningTime|]. intro openingTime.
    apply silent_bind; [apply silent_diffNow|]. intro d. apply silent_ret.
  - intro e. apply silent_bind; [apply silent_log | intros _; apply silent_ret].
Qed.

Lemma silent_getFallbackTimeout (env : Env) : Silent p (getFallbackTimeout env).
Proof.
  intro st. destruct (getFallbackTimeout_total env st) as [timeout ->].
  cbn [snd]. now rewrite trace_ticks.
Qed.

Lemma silent_getFallbackDaysOpen (env : Env) : Silent p (getFallbackDaysOpen env).
Proof. intro st. reflexivity. Qed.

(** [announce] adds nothing of the kind [p] when none of its four calls is
    of that kind. *)
Lemma silent_announce (env : Env) (timeout : Z) :
  (forall storeId, p (EDbFirst storeId) = false) ->
  (forall ms, p (ESetTimeout ms) = false) ->
  (forall webhookId webhookToken content,
      p (EWebhookPost webhookId webhookToken content) = false) ->
  (forall daysOpen storeId, p (EDbRun daysOpen storeId) = false) ->
  Silent p (announce env timeout).
Proof.
  intros P1 P2 P3 P4. unfold announce.
  apply silent_bind.
  { unfold first. apply silent_bind; [apply silent_emit, P1|]. intros _.
    destruct (DB_first env); [apply silent_throw | apply silent_ret]. }
  intro row. apply silent_bind.
  { destruct row; [apply silent_ret | apply silent_getFallbackDaysOpen]. }
  intro day. apply silent_bind; [apply silent_log|]. intros _.
  apply silent_bind; [apply silent_emit, P2|]. intros _.
  apply silent_bind.
  { unfold sendDiscordMessage. apply silent_bind; [apply silent_emit, P3|]. intros _.
    destruct (discord env); [apply silent_throw | apply silent_log]. }
  intros _. apply silent_bind; [apply silent_log|]. intros _.
  apply silent_bind; [|intros _; apply silent_log].
  unfold run. apply silent_bind; [apply silent_emit, P4|]. intros _.
  destruct (DB_run env); [apply silent_throw | apply silent_ret].
Qed.

End Silence.

Lemma returns_tryCatch {A} (m : M A) (handler : Exn -> M A) :
  (forall e, Returns (handler e)) -> Returns (tryCatch m handler).
Proof.
  intros Hh st. unfold tryCatch. destruct (m st) as [[a|e] st'].
  - now exists a, st'.
  - apply Hh.
Qed.

Lemma quiet_getTimeout (env : Env) (data : Json) : Quiet (getTimeout env data).
Proof. apply silent_getTimeout. reflexivity. Qed.

Lemma returns_getTimeout (env : Env) (data : Json) : Returns (getTimeout env data).
Proof.
  apply returns_tryCatch. intros e st. unfold bind, log, emit, ret. eauto.
Qed.

(** The payload is there exactly when the hours source answered, and
    missing exactly when the fetch failed. *)
Lemma payload_answers (env : Env) (data : Json) :
  payload env = Some data <-> answers env data.
Proof.
  unfold payload, answers. split.
  - destruct (storepoint env) as [|status [|d]]; try discriminate.
    destruct (ok status) eqn:O; [|discriminate].
    destruct (successFlag d) eqn:S; [|discriminate].
    intros [= <-]. destruct d; try discriminate. now exists status, members.
  - intros (status & members & -> & O & -> & T). cbn [successFlag].
    now rewrite O, T.
Qed.

Lemma payload_none (env : Env) : payload env = None <-> FetchFailure env.
Proof.
  split.
  - intro P. destruct (fetch_fails_or_answers env) as [F|[data A]]; [exact F|].
    apply payload_answers in A. congruence.
  - unfold payload.
    intros [F | status body F O | status F | status data F S]; rewrite F;
      try reflexivity.
    + destruct body; [reflexivity|]. now rewrite O.
    + rewrite S. now rewrite andb_false_r.
Qed.

Lemma getBusinessHours_run (env : Env) (id : Z) (st : State) :
  exists line,
    getBusinessHours env id st
    = (Ret (payload env),
       record [EFetch (URL_PREFIX ++ Str.ofNumber id); ELog line] st).
Proof.
  destruct (fetch_fails_or_answers env) as [F|[data A]].
  - destruct (getBusinessHours_fails env id st F) as [err E].
    exists (LogErr err). now rewrite E, (proj2 (payload_none env) F).
  - exists LogStorepointOk.
    now rewrite (getBusinessHours_answers env data id st A),
      (proj2 (payload_answers env data) A).
Qed.

(** X1.  [getBusinessHours] never throws: it asks the hours source once, at
    the address of the venue, writes one log line, and returns the payload
    when the source answered with a success status and a JSON object whose
    [success] member is truthy, and [undefined] in every other case. *)
Theorem X1_getBusinessHours_swallows (env : Env) (id : Z) (st : State) :
  exists line,
    getBusinessHours env id st
    = (Ret (payload env),
       record [EFetch (URL_PREFIX ++ Str.ofNumber id); ELog line] st)
    /\ (forall data, payload env = Some data <-> answers env data)
    /\ (payload env = None <-> FetchFailure env).
Proof.
  destruct (fetch_fails_or_answers env) as [F|[data A]].
  - destruct (getBusinessHours_fails env id st F) as [err E].
    exists (LogErr err). split; [|split].
    + now rewrite E, (proj2 (payload_none env) F).
    + apply payload_answers.
    + apply payload_none.
  - exists LogStorepointOk. split; [|split].
    + now rewrite (getBusinessHours_answers env data id st A),
        (proj2 (payload_answers env data) A).
    + apply payload_answers.
    + apply payload_none.
Qed.

(** X2.  [getTimeout] never throws, whatever the payload and the
    surroundings, and calls neither the notifier nor the database: every
    error on the way is caught and turned into [undefined]. *)
Theorem X2_getTimeout_swallows (env : Env) (data : Json) (st : State) :
  exists timeout st',
    getTimeout env data st = (Ret timeout, st')
    /\ calls (trace st') = calls (trace st).
Proof.
  destruct (returns_getTimeout env data st) as (timeout & st' & E).
  exists timeout, st'. split; [exact E|].
  pose proof (quiet_getTimeout env data st) as Q. now rewrite E in Q.
Qed.

(** With the zone unknown there is no weekday: the clock is read by [now]
    and by the invalid [DateTime] that [setZone] makes, and line 69 throws. *)
Lemma getCurrentDayOfWeekPT_unknown (env : Env) (st : State) :
  pacific env = None ->
  getCurrentDayOfWeekPT env st = (Throw NoDayOfWeek, tick (tick st)).
Proof.
  intro Z. unfold getCurrentDayOfWeekPT, bind.
  rewrite (getTodayPT_unknown env st Z). reflexivity.
Qed.

(** A payload that holds no hours map gives no timeout. *)
Lemma getTimeout_no_map (env : Env) (data : Json) (st : State) :
  hoursMap data = None -> fst (getTimeout env data st) = Ret None.
Proof.
  intro H. unfold getTimeout, tryCatch, bind, hoursMap in *.
  destruct data as [| | | | |members];
    cbn -[getCurrentDayOfWeekPT getOpeningTime diffNow]; try reflexivity.
  destruct (lookup "results" members) as [[| | | | |results]|];
    cbn -[getCurrentDayOfWeekPT getOpeningTime diffNow]; try reflexivity;
    try (destruct (getCurrentDayOfWeekPT env st) as [[d|e] st1]; reflexivity).
  destruct (lookup "location" results) as [[| | | | |location]|];
    try discriminate;
    cbn -[getCurrentDayOfWeekPT getOpeningTime diffNow]; try reflexivity;
    destruct (getCurrentDayOfWeekPT env st) as [[d|e] st1]; reflexivity.
Qed.

(** Without the zone there is no weekday, and no timeout. *)
Lemma getTimeout_unknown_zone (env : Env) (data : Json) (st : State) :
  pacific env = None -> fst (getTimeout env data st) = Ret None.
Proof.
  intro Z. destruct (hoursMap data) as [location|] eqn:H;
    [|now apply getTimeout_no_map].
  apply hoursMap_shape in H as (members & results & -> & R & Lo).
  unfold getTimeout, tryCatch, bind. cbn [getProp ret].
  rewrite R. cbn [getProp ret]. rewrite Lo.
  rewrite (getCurrentDayOfWeekPT_unknown env st Z). reflexivity.
Qed.

(** X3.  [getTimeout] returns a number only when the zone is known, the
    payload holds an hours map, the map holds a string for today's weekday,
    and the opening token of that string has an hour in one of the two
    formats: in every other case it returns [undefined]. *)
Theorem X3_timeout_only_from_hours (env : Env) (data : Json) (st : State)
    (timeout : Z) :
  fst (getTimeout env data st) = Ret (Some timeout) ->
  exists zone location text,
    pacific env = Some zone
    /\ hoursMap data = Some location
    /\ lookup (dayName zone (clock env (reads st))) location = Some (JStr text)
    /\ parseable text.
Proof.
  intro T.
  destruct (pacific env) as [zone|] eqn:Z;
    [|rewrite (getTimeout_unknown_zone env data st Z) in T; discriminate].
  destruct (hoursMap data) as [location|] eqn:H;
    [|rewrite (getTimeout_no_map env data st H) in T; discriminate].
  exists zone, location.
  destruct (lookup (dayName zone (clock env (reads st))) location)
    as [[| b | q | text | items | members]|] eqn:L.
  4: { exists text. repeat split; try reflexivity.
       destruct (opening_defined text) as [token O].
       destruct (firstHour token) as [h|] eqn:F.
       - apply parseable_firstHour. now exists token, h.
       - exfalso. unfold firstHour in F.
         destruct (parsedHour ha token) eqn:P1; [discriminate|].
         assert (U : unparseable text) by now exists token.
         destruct (getOpeningTime_unparseable env zone text (tick st) Z U) as [k G].
         rewrite <- L in G.
         rewrite (getTimeout_thrown env zone data location _ st _ Z H G) in T.
         discriminate. }
  all: exfalso;
    match type of L with
    | _ = ?hours =>
        destruct (getOpeningTime_not_a_string env hours (tick st)) as (st1 & G & _);
          [intros text; discriminate|]
    end;
    rewrite <- L in G;
    rewrite (getTimeout_thrown env zone data location _ st _ Z H G) in T;
    discriminate.
Qed.

Lemma X3_witness :
  exists zone location text,
    pacific (sampleEnv (instant 2024 6 24 9 0 (-420))
                       [("monday", JStr "10am-2am")] (Some 7)) = Some zone
    /\ hoursMap (storepointBody [("monday", JStr "10am-2am")]) = Some location
    /\ lookup (dayName zone
                 (clock (sampleEnv (instant 2024 6 24 9 0 (-420))
                                   [("monday", JStr "10am-2am")] (Some 7))
                        (reads fetched)))
              location
       = Some (JStr text)
    /\ parseable text.
Proof.
  apply (X3_timeout_only_from_hours
           (sampleEnv (instant 2024 6 24 9 0 (-420))
                      [("monday", JStr "10am-2am")] (Some 7))
           (storepointBody [("monday", JStr "10am-2am")]) fetched 3600000).
  vm_compute. reflexivity.
Defined.

(* ================================================================== *)
(** * The invocation as a whole *)
(* ================================================================== *)

(** Every invocation either decides a timeout and announces, with no call
    made before, or skips the day after an answer without a timeout. *)
Lemma scheduled_cases (env : Env) :
  (exists timeout st,
     calls (trace st) = []
     /\ scheduled env initial = announce env timeout st
     /\ (payload env = None
         \/ exists data,
              payload env = Some data
              /\ fst (getTimeout env data fetched) = Ret (Some timeout)))
  \/ (exists data st,
        payload env = Some data
        /\ getTimeout env data fetched = (Ret None, st)
        /\ calls (trace st) = []
        /\ scheduled env initial
           = if toStringThrows data
             then (Throw TypeError, st)
             else (Ret tt, record [ELog LogClosed] st)).
Proof.
  destruct (fetch_fails_or_answers env) as [F|[data A]].
  - left. destruct (scheduled_fetch_failure env F) as [err S]. cbn zeta in S.
    destruct (getFallbackTimeout_total env
                (record [EFetch (URL_PREFIX ++ Str.ofNumber PLAZA_BONITA_ID);
                         ELog (LogErr err)] initial)) as [timeout T].
    rewrite T in S. eexists timeout, _. split; [|split; [exact S|]].
    + rewrite trace_ticks. reflexivity.
    + left. now apply payload_none.
  - destruct (returns_getTimeout env data fetched) as (r & st & G).
    pose proof (quiet_getTimeout env data fetched) as Q. rewrite G in Q.
    cbn [snd] in Q. change (calls (trace fetched)) with (@nil Event) in Q.
    pose proof (scheduled_answers env data r st A G) as S.
    apply payload_answers in A.
    destruct r as [timeout|].
    + left. exists timeout, st. split; [exact Q|]. split; [exact S|].
      right. exists data. split; [exact A|]. now rewrite G.
    + right. exists data, st. auto.
Qed.

(** The calls of [announce] from a state without calls. *)
Lemma announce_shape (env : Env) (timeout : Z) (st : State) :
  calls (trace st) = [] ->
  exists day,
    let r := announce env timeout st in
    match DB_first env, discord env, DB_run env with
    | FirstFails, _, _ =>
        fst r = Throw D1Rejected /\ calls (trace (snd r)) = [EDbFirst PLAZA_BONITA_ID]
    | FirstValue _, PostFails, _ =>
        fst r = Throw FetchRejected
        /\ calls (trace (snd r)) = firstn 3 (fullCalls env timeout day)
    | FirstValue _, PostResponse _, RunFails =>
        fst r = Throw D1Rejected /\ calls (trace (snd r)) = fullCalls env timeout day
    | FirstValue _, PostResponse _, RunDone =>
        fst r = Ret tt /\ calls (trace (snd r)) = fullCalls env timeout day
    end.
Proof.
  intro C. cbn zeta. rewrite announce_run.
  destruct (DB_first env) as [|row].
  - exists 0. cbn [fst snd]. rewrite calls_record, C. split; reflexivity.
  - exists (dayNumber env row st). cbn zeta.
    assert (T : calls (trace (afterDayNumber row st)) = [])
      by (destruct row; exact C).
    destruct (discord env) as [|status].
    + cbn [fst snd]. rewrite calls_record, T. split; reflexivity.
    + destruct (DB_run env); cbn [fst snd]; rewrite calls_record, T;
        split; reflexivity.
Qed.

(** X4.  Whatever the surroundings, an invocation calls the notifier and
    the database in one order only: it reads the counter, waits, posts one
    message, and requests one write, of the day it announced plus one.  It
    stops short only where a collaborator rejects, or before the read when
    the day is skipped; it never posts twice, never writes without having
    posted, and never posts without having read. *)
Theorem X4_calls_in_order (env : Env) :
  exists timeout day,
    calls (events env) = []
    \/ (DB_first env = FirstFails
        /\ calls (events env) = [EDbFirst PLAZA_BONITA_ID])
    \/ (discord env = PostFails
        /\ calls (events env) = firstn 3 (fullCalls env timeout day))
    \/ calls (events env) = fullCalls env timeout day.
Proof.
  unfold events.
  destruct (scheduled_cases env)
    as [(timeout & st & C & S & _) | (data & st & _ & _ & C & S)].
  - destruct (announce_shape env timeout st C) as [day Sh]. cbn zeta in Sh.
    exists timeout, day. rewrite S.
    destruct (DB_first env) as [|row]; [right; left; now destruct Sh|].
    destruct (discord env) as [|status]; [right; right; left; now destruct Sh|].
    right; right; right. destruct (DB_run env); now destruct Sh.
  - exists 0, 0. left. rewrite S.
    destruct (toStringThrows data); cbn [snd]; [exact C|].
    rewrite calls_record, C. reflexivity.
Qed.

(** X5.  The day is skipped, with no call to the notifier or the
    database, exactly when the hours source answered and [getTimeout]
    returned [undefined]; after a failed fetch the counter is always read. *)
Theorem X5_skipped_exactly_when (env : Env) :
  calls (events env) = []
  <-> exists data,
        payload env = Some data
        /\ fst (getTimeout env data fetched) = Ret None.
Proof.
  unfold events.
  destruct (scheduled_cases env)
    as [(timeout & st & C & S & P) | (data & st & P & G & C & S)].
  - destruct (announce_shape env timeout st C) as [day Sh]. cbn zeta in Sh.
    rewrite S. split.
    + intro E. exfalso.
      destruct (DB_first env) as [|row];
        [destruct Sh as [_ Sh]; rewrite Sh in E; discriminate|].
      destruct (discord env) as [|status];
        [destruct Sh as [_ Sh]; rewrite Sh in E; discriminate|].
      destruct (DB_run env); destruct Sh as [_ Sh]; rewrite Sh in E; discriminate.
    + intros (data & Pd & G). exfalso.
      destruct P as [P | (data' & P & G')]; [congruence|].
      assert (data' = data) by congruence. subst data'. congruence.
  - split.
    + intros _. exists data. split; [exact P|]. now rewrite G.
    + intros _. rewrite S.
      destruct (toStringThrows data); cbn [snd]; [exact C|].
      rewrite calls_record, C. reflexivity.
Qed.

(** X6.  When the counter read, the notifier and the counter write all
    answer, the invocation ends normally whatever the hours source did:
    rejected, failed, answered without hours or with hours; but for a
    skipped day whose payload has a [toString] member of its own, which the
    last log line cannot render. *)
Theorem X6_ends_normally (env : Env) (row : option Z) (status : Z) :
  DB_first env = FirstValue row ->
  discord env = PostResponse status ->
  DB_run env = RunDone ->
  (forall data, payload env = Some data -> toStringThrows data = false) ->
  outcome env = Ret tt.
Proof.
  intros F D R N. unfold outcome.
  destruct (scheduled_cases env)
    as [(timeout & st & C & S & _) | (data & st & P & _ & _ & S)].
  - destruct (announce_shape env timeout st C) as [day Sh]. cbn zeta in Sh.
    rewrite F, D, R in Sh. rewrite S. now destruct Sh.
  - rewrite S, (N data P). reflexivity.
Qed.

(** The hours source rejects the request; the counter has no row. *)
Lemma X6_witness :
  outcome (hoursDown (instant 2024 6 24 9 0 (-420)) FetchFails None) = Ret tt.
Proof.
  apply (X6_ends_normally
           (hoursDown (instant 2024 6 24 9 0 (-420)) FetchFails None) None 204).
  - reflexivity.
  - reflexivity.
  - reflexivity.
  - intros data P. vm_compute in P. discriminate.
Defined.

(** X7.  An invocation that ends with an error ends with the rejection of
    the notifier, with the rejection of a read or write of the counter, or,
    on a skipped day, with the [TypeError] of a payload that cannot be
    rendered.  No error of the hours source, of its payload or of the parser
    leaves [scheduled]. *)
Theorem X7_errors_that_escape (env : Env) (e : Exn) :
  outcome env = Throw e ->
  (e = FetchRejected /\ discord env = PostFails)
  \/ (e = D1Rejected /\ (DB_first env = FirstFails \/ DB_run env = RunFails))
  \/ (e = TypeError
      /\ exists data,
           payload env = Some data
           /\ toStringThrows data = true
           /\ fst (getTimeout env data fetched) = Ret None).
Proof.
  unfold outcome.
  destruct (scheduled_cases env)
    as [(timeout & st & C & S & _) | (data & st & P & G & _ & S)]; rewrite S.
  - destruct (announce_shape env timeout st C) as [day Sh]. cbn zeta in Sh.
    destruct (DB_first env) as [|row].
    { destruct Sh as [-> _]. intros [= <-]. right; left. auto. }
    destruct (discord env) as [|status].
    { destruct Sh as [-> _]. intros [= <-]. left. auto. }
    destruct (DB_run env); destruct Sh as [-> _]; [|discriminate].
    intros [= <-]. right; left. auto.
  - destruct (toStringThrows data) eqn:T; cbn [fst]; [|discriminate].
    intros [= <-]. right; right. split; [reflexivity|].
    exists data. rewrite G. auto.
Qed.

(** The notifier is out of reach. *)
Lemma X7_witness :
  (FetchRejected = FetchRejected
   /\ discord (notifierDown (instant 2024 6 24 9 0 (-420))
                            [("monday", JStr "10am-2am")] (Some 7)) = PostFails)
  \/ (FetchRejected = D1Rejected
      /\ (DB_first (notifierDown (instant 2024 6 24 9 0 (-420))
                                 [("monday", JStr "10am-2am")] (Some 7)) = FirstFails
          \/ DB_run (notifierDown (instant 2024 6 24 9 0 (-420))
                                  [("monday", JStr "10am-2am")] (Some 7)) = RunFails))
  \/ (FetchRejected = TypeError
      /\ exists data,
           payload (notifierDown (instant 2024 6 24 9 0 (-420))
                                 [("monday", JStr "10am-2am")] (Some 7)) = Some data
           /\ toStringThrows data = true
           /\ fst (getTimeout (notifierDown (instant 2024 6 24 9 0 (-420))
                                            [("monday", JStr "10am-2am")] (Some 7))
                              data fetched) = Ret None).
Proof.
  apply (X7_errors_that_escape
           (notifierDown (instant 2024 6 24 9 0 (-420))
                         [("monday", JStr "10am-2am")] (Some 7))
           FetchRejected).
  vm_compute. reflexivity.
Defined.

(** A payload with a member named [toString], on a day without hours: the
    day is skipped and the last log line throws. *)
Example unrenderable_payload :
  let data := JObj [("success", JBool true); ("toString", JNum 1)] in
  let env := hoursDown (instant 2024 6 24 9 0 (-420))
                       (FetchResponse 200 (BodyJson data)) (Some 7) in
  outcome env = Throw TypeError /\ calls (events env) = [].
Proof. split; vm_compute; reflexivity. Qed.

(* ================================================================== *)
(** * The timeout as a time of the day *)
(* ================================================================== *)

(** With the offset of now still in force at [h] o'clock, [set] puts the
    clock at [h]:00:00.000 of today at that offset. *)
Lemma set_on_the_hour (zone : Zone) (t h : Z) (st : State) :
  zone (todayAt zone t h - zone t * MS_PER_MINUTE) = zone t ->
  set (Valid t zone (zone t)) (Some h) (Some 0) (Some 0) (Some 0) st
  = (Ret (Valid (todayAt zone t h - zone t * MS_PER_MINUTE) zone (zone t)), st).
Proof.
  intro H. unfold set.
  replace (localTS t (zone t) / MS_PER_DAY * MS_PER_DAY
           + h * MS_PER_HOUR + 0 * MS_PER_MINUTE + 0 * 1000 + 0)
    with (todayAt zone t h) by (unfold todayAt; ring).
  unfold fixOffset. rewrite H, Z.eqb_refl. reflexivity.
Qed.

(** From now to [h] o'clock of today: [h] hours minus the time of the day. *)
Lemma until_the_hour (zone : Zone) (t h : Z) :
  todayAt zone t h - zone t * MS_PER_MINUTE - t
  = h * MS_PER_HOUR - msOfDay t (zone t).
Proof.
  unfold todayAt, msOfDay.
  pose proof (Z.div_mod (localTS t (zone t)) MS_PER_DAY) as D.
  unfold localTS in *. unfold MS_PER_DAY in *. lia.
Qed.

Lemma msOfDay_bound (t o : Z) : 0 <= msOfDay t o < MS_PER_DAY.
Proof. unfold msOfDay, MS_PER_DAY. apply Z.mod_pos_bound. lia. Qed.

(** X8.  With the zone known, no change of its offset between now and
    10:00, and the clock standing still between the two readings, the
    fallback timeout is ten hours minus the time that the zone's wall clock
    shows: positive before 10:00, zero at 10:00, negative after it, never
    more than ten hours and never as low as minus fourteen. *)
Theorem X8_fallback_is_time_to_ten (env : Env) (zone : Zone) (st : State) :
  pacific env = Some zone ->
  clock env (S (reads st)) = clock env (reads st) ->
  zone (todayAt zone (clock env (reads st)) FALLBACK_HOUR
        - zone (clock env (reads st)) * MS_PER_MINUTE)
  = zone (clock env (reads st)) ->
  let elapsed := msOfDay (clock env (reads st)) (zone (clock env (reads st))) in
  fst (getFallbackTimeout env st) = Ret (10 * MS_PER_HOUR - elapsed)
  /\ - (14 * MS_PER_HOUR) < 10 * MS_PER_HOUR - elapsed <= 10 * MS_PER_HOUR.
Proof.
  intros Z F S elapsed. split.
  - rewrite (getFallbackTimeout_known env zone st Z). cbn [fst].
    unfold fixOffset. rewrite S, Z.eqb_refl. cbn [fst]. rewrite F.
    now rewrite until_the_hour.
  - pose proof (msOfDay_bound (clock env (reads st)) (zone (clock env (reads st)))).
    fold elapsed in H. unfold MS_PER_DAY, MS_PER_HOUR in *. lia.
Qed.

(** At 12:00 in Los Angeles: two hours past the reference hour. *)
Lemma X8_witness :
  let env := sampleEnv (instant 2024 6 24 12 0 (-420)) [] None in
  let elapsed := msOfDay (clock env (reads initial))
                         (losAngeles (clock env (reads initial))) in
  fst (getFallbackTimeout env initial) = Ret (10 * MS_PER_HOUR - elapsed)
  /\ - (14 * MS_PER_HOUR) < 10 * MS_PER_HOUR - elapsed <= 10 * MS_PER_HOUR.
Proof.
  apply (X8_fallback_is_time_to_ten
           (sampleEnv (instant 2024 6 24 12 0 (-420)) [] None) losAngeles initial).
  - reflexivity.
  - reflexivity.
  - reflexivity.
Defined.

(** X9.  With the clock standing still at [t], today's hours a string
    whose opening token reads as the hour [h] before 24, and no change of
    the zone's offset between now and [h] o'clock, [getTimeout] returns [h]
    hours minus the time that the zone's wall clock shows: the time left to
    the opening, negative once it has passed. *)
Theorem X9_timeout_is_time_to_opening (env : Env) (zone : Zone) (data : Json)
    (location : list (string * Json)) (text token : string) (h t : Z) (st : State) :
  pacific env = Some zone ->
  hoursMap data = Some location ->
  (forall k, clock env k = t) ->
  lookup (dayName zone t) location = Some (JStr text) ->
  opening text = Some token ->
  firstHour token = Some h ->
  h < 24 ->
  zone (todayAt zone t h - zone t * MS_PER_MINUTE) = zone t ->
  fst (getTimeout env data st) = Ret (Some (h * MS_PER_HOUR - msOfDay t (zone t))).
Proof.
  intros Z H C L O F B S.
  pose proof (firstHour_range token h F) as R.
  pose proof (getOpeningTime_parsed env zone text token h (tick st) Z O F) as G.
  cbn zeta in G. rewrite !C in G.
  destruct (fields_on_the_hour utc (t / MS_PER_DAY * MS_PER_DAY + h * MS_PER_HOUR)
              0 (t / MS_PER_DAY) h) as (_ & Hh & Hm & Hs & Hms);
    [lia | unfold localTS; lia |].
  cbn zeta in Hh, Hm, Hs, Hms. rewrite Hh, Hm, Hs, Hms in G.
  rewrite set_on_the_hour in G by exact S.
  rewrite <- (C (reads st)) in L.
  rewrite (getTimeout_resolved env zone data location text _ _ st _ Z H L G).
  cbn [fst]. rewrite C. now rewrite until_the_hour.
Qed.

(** Hours [9PM - 2AM] at 12:00 in Los Angeles: nine hours to go. *)
Lemma X9_witness :
  fst (getTimeout (sampleEnv (instant 2024 6 24 12 0 (-420))
                             [("monday", JStr "9PM - 2AM")] None)
                  (storepointBody [("monday", JStr "9PM - 2AM")]) fetched)
  = Ret (Some (21 * MS_PER_HOUR
               - msOfDay (instant 2024 6 24 12 0 (-420))
                         (losAngeles (instant 2024 6 24 12 0 (-420))))).
Proof.
  apply (X9_timeout_is_time_to_opening
           (sampleEnv (instant 2024 6 24 12 0 (-420))
                      [("monday", JStr "9PM - 2AM")] None)
           losAngeles
           (storepointBody [("monday", JStr "9PM - 2AM")])
           [("monday", JStr "9PM - 2AM")] "9PM - 2AM" "9PM" 21
           (instant 2024 6 24 12 0 (-420)) fetched).
  - reflexivity.
  - reflexivity.
  - reflexivity.
  - vm_compute. reflexivity.
  - reflexivity.
  - reflexivity.
  - lia.
  - reflexivity.
Defined.

Example time_to_opening_samples :
  let hours := [("monday", JStr "9PM - 2AM")] in
  fst (getTimeout (sampleEnv (instant 2024 6 24 12 0 (-420)) hours None)
                  (storepointBody hours) fetched)
  = Ret (Some (9 * MS_PER_HOUR))
  /\ fst (getTimeout (sampleEnv (instant 2024 6 24 23 30 (-420)) hours None)
                     (storepointBody hours) fetched)
     = Ret (Some (- (150 * MS_PER_MINUTE))).
Proof. split; vm_compute; reflexivity. Qed.

(* ================================================================== *)
(** * The day number over time *)
(* ================================================================== *)

(** X10.  The fallback day number never goes down as time goes on, and a
    run exactly one day after another gives one more: the number that the
    earlier run, having announced its own, would have written. *)
Theorem X10_day_number_over_time (env env' : Env) (st st' : State) :
  clock env (reads st) <= clock env' (reads st') ->
  exists n n',
    fst (getFallbackDaysOpen env st) = Ret n
    /\ fst (getFallbackDaysOpen env' st') = Ret n'
    /\ n <= n'
    /\ (clock env' (reads st') = clock env (reads st) + MS_PER_DAY -> n' = n + 1).
Proof.
  intro L. rewrite !getFallbackDaysOpen_run. cbn [fst].
  exists (fallbackDays (clock env (reads st))), (fallbackDays (clock env' (reads st'))).
  split; [reflexivity|]. split; [reflexivity|].
  rewrite !fallbackDays_floor. split.
  - assert ((openingInstant - clock env' (reads st')) / MS_PER_DAY
            <= (openingInstant - clock env (reads st)) / MS_PER_DAY)
      by (apply Z.div_le_mono; unfold MS_PER_DAY; lia).
    lia.
  - intros ->.
    replace (openingInstant - (clock env (reads st) + MS_PER_DAY))
      with (openingInstant - clock env (reads st) + (-1) * MS_PER_DAY) by ring.
    rewrite Z.div_add by (unfold MS_PER_DAY; lia). lia.
Qed.

(** At 09:57 on two consecutive days. *)
Lemma X10_witness :
  exists n n',
    fst (getFallbackDaysOpen (sampleEnv (instant 2024 7 1 9 57 (-420)) [] None) initial)
    = Ret n
    /\ fst (getFallbackDaysOpen (sampleEnv (instant 2024 7 2 9 57 (-420)) [] None)
                                initial)
       = Ret n'
    /\ n <= n'
    /\ (clock (sampleEnv (instant 2024 7 2 9 57 (-420)) [] None) (reads initial)
        = clock (sampleEnv (instant 2024 7 1 9 57 (-420)) [] None) (reads initial)
          + MS_PER_DAY
        -> n' = n + 1).
Proof.
  apply (X10_day_number_over_time
           (sampleEnv (instant 2024 7 1 9 57 (-420)) [] None)
           (sampleEnv (instant 2024 7 2 9 57 (-420)) [] None) initial initial).
  vm_compute. discriminate.
Defined.

(* ================================================================== *)
(** * The message *)
(* ================================================================== *)

Lemma length_app (s t : string) :
  String.length (s ++ t) = (String.length s + String.length t)%nat.
Proof. induction s as [|c s IH]; cbn; [reflexivity | now rewrite IH]. Qed.

Lemma append_cancel_l (p s t : string) : (p ++ s = p ++ t)%string -> s = t.
Proof. induction p as [|c p IH]; cbn; [auto | intros [= H]; auto]. Qed.

Lemma append_cancel_r (s t u : string) : (s ++ u = t ++ u)%string -> s = t.
Proof.
  revert t. induction s as [|c s IH]; intros [|d t] H; cbn in H.
  - reflexivity.
  - apply (f_equal String.length) in H. cbn in H. rewrite length_app in H. lia.
  - apply (f_equal String.length) in H. cbn in H. rewrite length_app in H. lia.
  - injection H as -> H. f_equal. now apply IH.
Qed.

(** A number is read back from its decimal rendering. *)
Lemma ofNumber_read_back (n : Z) :
  option_map Z.of_int (NilZero.int_of_string (Str.ofNumber n)) = Some n.
Proof.
  unfold Str.ofNumber. rewrite NilZero.isi.
  - cbn [option_map]. now rewrite DecimalZ.of_to.
  - destruct n; cbn; try discriminate.
    intros [= H]. now apply DecimalPos.Unsigned.to_uint_nonnil in H.
  - destruct n; cbn; try discriminate.
    intros [= H]. now apply DecimalPos.Unsigned.to_uint_nonnil in H.
Qed.

Lemma ofNumber_inj (n m : Z) : Str.ofNumber n = Str.ofNumber m -> n = m.
Proof.
  intro H. pose proof (ofNumber_read_back n) as R. rewrite H in R.
  rewrite ofNumber_read_back in R. congruence.
Qed.

(** X11.  The message tells the day: two day numbers with the same message
    are the same number. *)
Theorem X11_message_tells_the_day (n m : Z) :
  getMessage n = getMessage m -> n = m.
Proof.
  unfold getMessage. intro H.
  apply append_cancel_l, append_cancel_r in H. now apply ofNumber_inj.
Qed.

Lemma X11_witness : 7 = 7.
Proof. apply (X11_message_tells_the_day 7 7). reflexivity. Defined.

Example messages :
  map getMessage [1; 7; 164; 0; -3]
  = ["Round1 Plaza Bonita Day 1: START"; "Round1 Plaza Bonita Day 7: START";
     "Round1 Plaza Bonita Day 164: START"; "Round1 Plaza Bonita Day 0: START";
     "Round1 Plaza Bonita Day -3: START"].
Proof. reflexivity. Qed.

(* ================================================================== *)
(** * The parts of the hours text *)
(* ================================================================== *)

Lemma prefix_append (p s : string) :
  prefix p s = true -> exists rest, s = (p ++ rest)%string.
Proof.
  revert s. induction p as [|a p IH]; intros s H.
  - exists s. reflexivity.
  - destruct s as [|c s]; cbn [prefix] in H; [discriminate|].
    destruct (ascii_dec a c) as [->|]; [|discriminate].
    destruct (IH s H) as [rest ->]. now exists rest.
Qed.

(** Passing over what is left of a separator. *)
Lemma split_from_skip (sep u rest cur : string) :
  Str.split_from sep (String.length u) cur (u ++ rest) = Str.split_from sep 0 cur rest.
Proof. induction u as [|c u IH]; cbn; [reflexivity | exact IH]. Qed.

Lemma concat_cons (sep x : string) (xs : list string) :
  xs <> [] -> concat sep (x :: xs) = (x ++ sep ++ concat sep xs)%string.
Proof. destruct xs; [congruence | reflexivity]. Qed.

(** Joining the parts of a split with the separator gives the text back. *)
Lemma split_from_join (sep : string) (n : nat) (s cur : string) :
  sep <> "" ->
  (String.length s <= n)%nat ->
  concat sep (Str.split_from sep 0 cur s) = (cur ++ s)%string.
Proof.
  intro N. revert s cur. induction n as [|n IH]; intros s cur L.
  - destruct s; cbn in L; [|lia]. cbn. now rewrite append_empty_r.
  - destruct s as [|c s]; [cbn; now rewrite append_empty_r|].
    cbn [Str.split_from]. destruct (prefix sep (String c s)) eqn:P.
    + destruct sep as [|a u]; [congruence|].
      destruct (prefix_append _ _ P) as [rest E]. cbn in E. injection E as -> ->.
      cbn [String.length Nat.pred]. rewrite split_from_skip.
      destruct (split_from_first (String a u) rest "") as [more F].
      rewrite concat_cons by (rewrite F; discriminate).
      rewrite IH by (cbn in L; rewrite length_app in L; lia).
      reflexivity.
    + rewrite IH by (cbn in L; lia). apply append_snoc.
Qed.

(** X12.  Nothing of the hours text is lost in its parts: joined with the
    separator that line 87 settled on, [-] for a text with exactly one dash
    and [to] otherwise, the parts give the text back. *)
Theorem X12_times_join (hours : string) :
  concat (if Nat.eqb (Str.count "-" hours) 1 then "-" else "to") (times hours)
  = hours.
Proof.
  unfold times. rewrite split_dash_length.
  change (Nat.eqb (S (Str.count "-" hours)) 2) with (Nat.eqb (Str.count "-" hours) 1).
  destruct (Nat.eqb (Str.count "-" hours) 1); cbn [negb]; unfold Str.split;
    apply (split_from_join _ (String.length hours)); (discriminate || lia).
Qed.

Example times_samples :
  map times ["10AM - 2AM"; "10am to 2am"; "closed"; "10-12-2"; "10 to 12 to 2"; ""]
  = [["10AM "; " 2AM"]; ["10am "; " 2am"]; ["closed"]; ["10-12-2"];
     ["10 "; " 12 "; " 2"]; [""]].
Proof. reflexivity. Qed.

(* ================================================================== *)
(** * The opening token and the weekday *)
(* ================================================================== *)

Lemma trimEnd_cons (c : ascii) (s : string) :
  Str.trimEnd (String c s)
  = match Str.trimEnd s with
    | EmptyString => if Str.is_space c then EmptyString else String c EmptyString
    | t => String c t
    end.
Proof. reflexivity. Qed.

Lemma trimEnd_idempotent (s : string) : Str.trimEnd (Str.trimEnd s) = Str.trimEnd s.
Proof.
  induction s as [|c s IH]; [reflexivity|].
  rewrite trimEnd_cons. destruct (Str.trimEnd s) as [|d t] eqn:E.
  - destruct (Str.is_space c) eqn:Sp; [reflexivity|].
    rewrite trimEnd_cons. cbn [Str.trimEnd]. now rewrite Sp.
  - rewrite trimEnd_cons, IH. reflexivity.
Qed.

(** What [trimStart] leaves does not begin with white space, and [trimEnd]
    keeps its first character. *)
Lemma trimStart_head (s : string) :
  Str.trimStart s = ""
  \/ exists c r, Str.trimStart s = String c r /\ Str.is_space c = false.
Proof.
  induction s as [|c s IH]; [now left|].
  cbn [Str.trimStart]. destruct (Str.is_space c) eqn:Sp; [exact IH|].
  right. now exists c, s.
Qed.

Lemma trimEnd_head (c : ascii) (r : string) :
  Str.is_space c = false -> exists r', Str.trimEnd (String c r) = String c r'.
Proof.
  intro Sp. rewrite trimEnd_cons. destruct (Str.trimEnd r).
  - rewrite Sp. now exists "".
  - eexists. reflexivity.
Qed.

Lemma trim_idempotent (s : string) : Str.trim (Str.trim s) = Str.trim s.
Proof.
  unfold Str.trim.
  destruct (trimStart_head s) as [-> | (c & r & -> & Sp)]; [reflexivity|].
  destruct (trimEnd_head c r Sp) as [r' E]. rewrite E.
  cbn [Str.trimStart]. rewrite Sp, <- E. apply trimEnd_idempotent.
Qed.

(** X13.  The opening token that the parser is given has no white space
    left around it: trimming it once more changes nothing. *)
Theorem X13_opening_is_trimmed (hours token : string) :
  opening hours = Some token -> Str.trim token = token.
Proof.
  unfold opening. destruct (times hours) as [|first rest]; [discriminate|].
  intros [= <-]. apply trim_idempotent.
Qed.

Lemma X13_witness : Str.trim "10 am" = "10 am".
Proof. apply (X13_opening_is_trimmed "  10 am   to 2 am"). reflexivity. Defined.

(** The seven keys are seven different names. *)
Lemma dayKey_inj (i j : nat) :
  (i < 7)%nat -> (j < 7)%nat ->
  Str.toLowerCase (nth i weekdayNames "") = Str.toLowerCase (nth j weekdayNames "") ->
  i = j.
Proof.
  intros Hi Hj.
  do 7 (destruct i as [|i];
        [do 7 (destruct j as [|j];
               [intro E; first [reflexivity | vm_compute in E; discriminate E]|]);
         lia|]).
  lia.
Qed.

Lemma same_weekday (d d' : Z) :
  Z.to_nat ((d + 3) mod 7) = Z.to_nat ((d' + 3) mod 7) <-> (d - d') mod 7 = 0.
Proof.
  pose proof (Z.mod_pos_bound (d + 3) 7 ltac:(lia)).
  pose proof (Z.mod_pos_bound (d' + 3) 7 ltac:(lia)).
  rewrite Z2Nat.inj_iff by lia.
  pose proof (Z.div_mod (d + 3) 7 ltac:(lia)).
  pose proof (Z.div_mod (d' + 3) 7 ltac:(lia)).
  pose proof (Z.div_mod (d - d') 7 ltac:(lia)).
  pose proof (Z.mod_pos_bound (d - d') 7 ltac:(lia)).
  lia.
Qed.

(** X14.  With the zone known, [getCurrentDayOfWeekPT] reads the clock once
    and returns one of the seven lower-case weekday names, that of the day
    which the zone's wall clock shows; and the name tells the weekday: two
    instants have the same name exactly when the days that their wall clocks
    show are a whole number of weeks apart.  With the zone unknown it reads
    the clock twice and throws. *)
Theorem X14_day_of_week (env : Env) (st : State) :
  match pacific env with
  | Some zone =>
      let t := clock env (reads st) in
      getCurrentDayOfWeekPT env st = (Ret (dayName zone t), tick st)
      /\ In (dayName zone t) weekdayKeys
      /\ forall (zone' : Zone) (t' : Z),
           dayName zone t = dayName zone' t'
           <-> (localTS t (zone t) / MS_PER_DAY
                - localTS t' (zone' t') / MS_PER_DAY) mod 7 = 0
  | None => getCurrentDayOfWeekPT env st = (Throw NoDayOfWeek, tick (tick st))
  end.
Proof.
  destruct (pacific env) as [zone|] eqn:Z.
  - cbn zeta. split; [now apply getCurrentDayOfWeekPT_run|]. split.
    + unfold dayName.
      pose proof (Z.mod_pos_bound
                    (localTS (clock env (reads st)) (zone (clock env (reads st)))
                     / MS_PER_DAY + 3) 7) as B.
      destruct (Z.to_nat _) as [|[|[|[|[|[|[|k]]]]]]] eqn:E;
        try (cbn; tauto).
      lia.
    + intros zone' t'. rewrite <- same_weekday. unfold dayName. split.
      * apply dayKey_inj.
        -- pose proof (Z.mod_pos_bound
                         (localTS (clock env (reads st))
                                  (zone (clock env (reads st))) / MS_PER_DAY + 3) 7).
           lia.
        -- pose proof (Z.mod_pos_bound
                         (localTS t' (zone' t') / MS_PER_DAY + 3) 7).
           lia.
      * now intros ->.
  - now apply getCurrentDayOfWeekPT_unknown.
Qed.

Example days_of_week :
  map (dayName losAngeles)
      [instant 2024 6 24 9 0 (-420); instant 2024 6 24 23 59 (-420);
       instant 2024 6 25 0 0 (-420); instant 2024 6 30 9 0 (-420);
       instant 1970 1 1 12 0 (-480)]
  = ["monday"; "monday"; "tuesday"; "sunday"; "thursday"].
Proof. vm_compute. reflexivity. Qed.

(** X15.  A token that reads as the hour [h] before 24 gives the opening
    time on today's date in the zone, today being read from the clock after
    the readings that the parse of the token makes, at [h]:00:00.000,
    provided the zone's wall clock shows that time today. *)
Theorem X15_opening_on_todays_date (env : Env) (zone : Zone) (text token : string)
    (h : Z) (st : State) :
  pacific env = Some zone ->
  opening text = Some token ->
  firstHour token = Some h ->
  h < 24 ->
  let p := parseReadings token in
  let t := clock env (p + reads st) in
  wallClockShows zone (zone t) (todayAt zone t h) ->
  exists openingTime,
    getOpeningTime env (Some (JStr text)) st
    = (Ret openingTime, afterAttempt text (S p) st)
    /\ localDay openingTime = localDay (Valid t zone (zone t))
    /\ hour openingTime = Some h
    /\ minute openingTime = Some 0
    /\ second openingTime = Some 0
    /\ millisecond openingTime = Some 0.
Proof.
  intros Z O F B p t W.
  pose proof (firstHour_range token h F) as R.
  set (fixed := fixOffset (todayAt zone t h) (zone t) zone).
  exists (Valid (fst fixed) zone (snd fixed)). split.
  - rewrite (getOpeningTime_resolved env zone text token h st Z O F). cbn zeta.
    rewrite Z.mod_small by lia. reflexivity.
  - destruct (fields_on_the_hour zone (fst fixed) (snd fixed)
                (localTS t (zone t) / MS_PER_DAY) h)
      as (D & Hh & Hm & Hs & Hms); [lia | exact (fixOffset_shows _ _ _ W) |].
    cbn zeta in *. repeat split; assumption.
Qed.

(** Hours [9 PM to 2 AM], read in the second format after the first has
    failed, on Monday 2024-06-24 in Los Angeles: three readings of the clock,
    the third for today's date. *)
Lemma X15_witness :
  let env := tickingEnv (instant 2024 6 24 9 0 (-420)) [] None in
  let t := clock env 2 in
  parseReadings "9 PM" = 2%nat
  /\ exists openingTime,
       getOpeningTime env (Some (JStr "9 PM to 2 AM")) initial
       = (Ret openingTime, afterAttempt "9 PM to 2 AM" 3 initial)
       /\ localDay openingTime = localDay (Valid t losAngeles (losAngeles t))
       /\ hour openingTime = Some 21
       /\ minute openingTime = Some 0
       /\ second openingTime = Some 0
       /\ millisecond openingTime = Some 0.
Proof.
  split; [reflexivity|].
  apply (X15_opening_on_todays_date
           (tickingEnv (instant 2024 6 24 9 0 (-420)) [] None)
           losAngeles "9 PM to 2 AM" "9 PM" 21 initial).
  - reflexivity.
  - reflexivity.
  - reflexivity.
  - lia.
  - left. reflexivity.
Defined.

(** What [scheduled] does after [getBusinessHours] adds nothing of a kind
    that neither the log lines nor the four calls of [announce] are of. *)
Lemma silent_after_fetch (p : Event -> bool) (env : Env) (resp : option Json) :
  (forall line, p (ELog line) = false) ->
  (forall storeId, p (EDbFirst storeId) = false) ->
  (forall ms, p (ESetTimeout ms) = false) ->
  (forall webhookId webhookToken content,
      p (EWebhookPost webhookId webhookToken content) = false) ->
  (forall daysOpen storeId, p (EDbRun daysOpen storeId) = false) ->
  Silent p
    (timeout <- match resp with
                | Some data => getTimeout env data
                | None => t <- getFallbackTimeout env ;; ret (Some t)
                end ;;
     match timeout with
     | Some timeout => announce env timeout
     | None =>
         match resp with
         | Some data => if toStringThrows data then throw TypeError else log LogClosed
         | None => log LogClosed
         end
     end).
Proof.
  intros L P1 P2 P3 P4. apply silent_bind.
  - destruct resp as [data|].
    + now apply silent_getTimeout.
    + apply silent_bind; [now apply silent_getFallbackTimeout|].
      intro t. apply silent_ret.
  - intros [timeout|].
    + now apply silent_announce.
    + destruct resp as [data|]; [destruct (toStringThrows data)|];
        first [apply silent_throw | now apply silent_log].
Qed.

(** X16.  Every invocation asks the hours source exactly once, for the
    venue 39156327, whatever happens afterwards: a failed fetch is not
    tried again. *)
Theorem X16_one_fetch (env : Env) :
  filter isFetch (events env)
  = [EFetch "https://api.storepoint.co/v1/16026f2c5ac3c7/location/39156327"].
Proof.
  unfold events, scheduled. unfold bind at 1.
  destruct (getBusinessHours_run env PLAZA_BONITA_ID initial) as [line ->].
  rewrite (silent_after_fetch isFetch env (payload env)); reflexivity.
Qed.
